(** * BOM comparison platform: the agent orchestrator and its stub agents

    A shallow embedding of

    - [backend/agents/agent_orchestrator.py]  (class [AgentOrchestrator]),
    - [backend/agents/translation_agent.py]   (class [TranslationAgent]),
    - [backend/agents/extraction_agent.py]    (class [ExtractionAgent]),
    - [backend/models/schemas.py]             (class [BOMComparisonResult]),
    - [backend/utils/gemini_client.py]        (class [GeminiClient]),

    followed by the properties of the specification that concern them.

    Python values are embedded as a JSON-like universe ([value]); a Python
    [dict] is a [gmap] whose keys are the hashable scalars.  Code that
    raises is embedded in an error monad; code that talks to the outside
    (files, clock, progress callback, the collaborators whose modules are
    not part of the sources at hand) runs in a state-and-trace monad over
    an abstract world. *)

From Stdlib Require Import Ascii String QArith Qcanon DecimalString.
From stdpp Require Import gmap strings list fin_maps countable.

Set Warnings "-register-all".
Local Open Scope string_scope.
Local Open Scope Z_scope.

(* ===================================================================== *)
(** ** Python values *)
(* ===================================================================== *)

(** Hashable scalars, as they behave as dictionary keys: [True], [1] and
    [1.0] are one and the same key, hence a single numeric constructor
    carrying a canonical rational. *)
Inductive key :=
| KNone
| KNum (q : Qc)
| KStr (s : string).

Global Instance key_eq_dec : EqDecision key.
Proof. solve_decision. Defined.

Global Instance key_countable : Countable key.
Proof.
  refine (inj_countable'
    (fun k => match k with
              | KNone => inl tt
              | KNum q => inr (inl q)
              | KStr s => inr (inr s)
              end)
    (fun x => match x with
              | inl _ => KNone
              | inr (inl q) => KNum q
              | inr (inr s) => KStr s
              end) _).
  by intros [].
Defined.

Global Instance KStr_inj : Inj (=) (=) KStr.
Proof. by intros ?? [= ->]. Qed.

(** The values that flow through the pipeline.  A finite [float] is
    carried as the rational it denotes; the code never does arithmetic on
    floats, it only stores literals and compares against [0.5].  Strings
    are sequences of 7-bit characters. *)
Inductive value :=
| VNone
| VBool (b : bool)
| VInt (z : Z)
| VFloat (q : Qc)
| VStr (s : string)
| VList (l : list value)
| VDict (d : gmap key value).

Definition Qc_of_Z (z : Z) : Qc := Q2Qc (inject_Z z).

(** The decimal literal [n / d], for [d] a power of ten. *)
Definition dec (n : Z) (d : positive) : Qc := Q2Qc (n # d).

(** [type(v).__name__] *)
Definition type_name (v : value) : string :=
  match v with
  | VNone => "NoneType"
  | VBool _ => "bool"
  | VInt _ => "int"
  | VFloat _ => "float"
  | VStr _ => "str"
  | VList _ => "list"
  | VDict _ => "dict"
  end.

(** [bool(v)] *)
Definition truthy (v : value) : bool :=
  match v with
  | VNone => false
  | VBool b => b
  | VInt z => negb (z =? 0)
  | VFloat q => negb (bool_decide (q = Qc_of_Z 0))
  | VStr s => negb (bool_decide (s = ""))
  | VList l => negb (bool_decide (l = []))
  | VDict d => negb (bool_decide (d = ∅))
  end.

(** A dictionary literal with string keys. *)
Definition dict_of (l : list (string * value)) : value :=
  VDict (list_to_map (prod_map KStr id <$> l)).

Definition value_of_key (k : key) : value :=
  match k with
  | KNone => VNone
  | KNum q => VFloat q
  | KStr s => VStr s
  end.

(** [str(n)] for a non-negative integer such as a [len]. *)
Definition str_of_nat (n : nat) : string :=
  NilZero.string_of_uint (Nat.to_uint n).

(** ASCII lower-casing, character by character. *)
Definition lower_ascii (c : ascii) : ascii :=
  let n := nat_of_ascii c in
  if (Nat.leb 65 n && Nat.leb n 90)%bool then ascii_of_nat (n + 32) else c.

Fixpoint lower (s : string) : string :=
  match s with
  | EmptyString => EmptyString
  | String c s' => String (lower_ascii c) (lower s')
  end.

(* ===================================================================== *)
(** ** Exceptions and the error monad of pure code *)
(* ===================================================================== *)

(** An instance of [Exception]: its class name and [str(e)]. *)
Record exn := Exn { exn_class : string; exn_str : string }.

Inductive res (A : Type) :=
| Ok (a : A)
| Raise (e : exn).
Arguments Ok {A} a.
Arguments Raise {A} e.

Global Instance res_ret : MRet res := fun A a => Ok a.

Global Instance res_bind : MBind res := fun A B f r =>
  match r with
  | Ok a => f a
  | Raise e => Raise e
  end.

Definition is_ok {A} (r : res A) : bool :=
  match r with Ok _ => true | Raise _ => false end.

Fixpoint res_foldl {A B} (f : B -> A -> res B) (acc : B) (l : list A) : res B :=
  match l with
  | [] => Ok acc
  | x :: l' => acc' ← f acc x; res_foldl f acc' l'
  end.

Definition AttributeError (v : value) (attr : string) : exn :=
  Exn "AttributeError"
      ("'" ++ type_name v ++ "' object has no attribute '" ++ attr ++ "'").

Definition TypeError (msg : string) : exn := Exn "TypeError" msg.

(** [v.get(k, dflt)]: only dictionaries have the method. *)
Definition py_get (v : value) (k : string) (dflt : value) : res value :=
  match v with
  | VDict d => Ok (default dflt (d !! KStr k))
  | _ => Raise (AttributeError v "get")
  end.

(** [v[k]] for a string [k]. *)
Definition py_subscript (v : value) (k : string) : res value :=
  match v with
  | VDict d =>
      match d !! KStr k with
      | Some x => Ok x
      | None => Raise (Exn "KeyError" ("'" ++ k ++ "'"))
      end
  | VList _ => Raise (TypeError "list indices must be integers or slices, not str")
  | VStr _ => Raise (TypeError "string indices must be integers, not 'str'")
  | _ => Raise (TypeError ("'" ++ type_name v ++ "' object is not subscriptable"))
  end.

(** [v.lower()] *)
Definition py_lower (v : value) : res string :=
  match v with
  | VStr s => Ok (lower s)
  | _ => Raise (AttributeError v "lower")
  end.

(** [len(v)] *)
Definition py_len (v : value) : res nat :=
  match v with
  | VStr s => Ok (String.length s)
  | VList l => Ok (length l)
  | VDict d => Ok (size d)
  | _ => Raise (TypeError ("object of type '" ++ type_name v ++ "' has no len()"))
  end.

(** The elements a [for] loop over [v] visits. *)
Definition py_iter (v : value) : res (list value) :=
  match v with
  | VList l => Ok l
  | VDict d => Ok (value_of_key <$> (map_to_list d).*1)
  | VStr s => Ok ((fun c => VStr (String c EmptyString)) <$> list_ascii_of_string s)
  | _ => Raise (TypeError ("'" ++ type_name v ++ "' object is not iterable"))
  end.

(** The key under which [v] is stored in a dictionary. *)
Definition hash_key (v : value) : res key :=
  match v with
  | VNone => Ok KNone
  | VBool b => Ok (KNum (Qc_of_Z (if b then 1 else 0)))
  | VInt z => Ok (KNum (Qc_of_Z z))
  | VFloat q => Ok (KNum q)
  | VStr s => Ok (KStr s)
  | VList _ | VDict _ => Raise (TypeError ("unhashable type: '" ++ type_name v ++ "'"))
  end.

(** [v > f] for a float [f]. *)
Definition py_gt_float (v : value) (f : Qc) : res bool :=
  match v with
  | VBool b => Ok (bool_decide (f < Qc_of_Z (if b then 1 else 0))%Qc)
  | VInt z => Ok (bool_decide (f < Qc_of_Z z)%Qc)
  | VFloat q => Ok (bool_decide (f < q)%Qc)
  | _ => Raise (TypeError ("'>' not supported between instances of '"
                           ++ type_name v ++ "' and 'float'"))
  end.

(** [len([m for m in v if p(m)])] *)
Definition count_where (p : value -> res bool) (v : value) : res nat :=
  ms ← py_iter v;
  res_foldl (fun n m => b ← p m; Ok (if b : bool then S n else n)) O ms.

(* ===================================================================== *)
(** ** [AgentOrchestrator._generate_qa_classification_summary] *)
(* ===================================================================== *)

Module Summary.

(** The two local dictionaries of the loop. *)
Record acc := Acc {
  classification_counts : gmap key Z;
  confidence_distribution : gmap string Z
}.

Definition init : acc :=
  Acc ∅ (<["low" := 0]> (<["medium" := 0]> (<["high" := 0]> ∅))).

(** One iteration of [for match in matches]. *)
Definition step (a : acc) (m : value) : res acc :=
  label ← py_get m "qa_classification_label" (VInt 5);
  k ← hash_key label;
  let counts := <[k := default 0 (classification_counts a !! k) + 1]>
                  (classification_counts a) in
  got ← py_get m "qa_confidence_level" (VStr "medium");
  confidence_level ← py_lower got;
  let dist :=
    match confidence_distribution a !! confidence_level with
    | Some n => <[confidence_level := n + 1]> (confidence_distribution a)
    | None => confidence_distribution a
    end in
  Ok (Acc counts dist).

Definition to_value (a : acc) (total : nat) : value :=
  dict_of [ ("classification_counts", VDict (VInt <$> classification_counts a));
            ("confidence_distribution",
               VDict (kmap KStr (VInt <$> confidence_distribution a)));
            ("total_items", VInt (Z.of_nat total)) ].

Definition generate (matches : value) : res value :=
  ms ← py_iter matches;
  a ← res_foldl step init ms;
  n ← py_len matches;
  Ok (to_value a n).

End Summary.

Definition _generate_qa_classification_summary := Summary.generate.

(* ===================================================================== *)
(** ** [schemas.BOMComparisonResult] *)
(* ===================================================================== *)

(** The pydantic model declares [workflow_id: str],
    [matches: List[Dict[str, Any]]] and [summary: Dict[str, Any]];
    constructing an instance validates the arguments against these types.
    An instance stores the validated Python objects. *)
Record BOMComparisonResult := {
  workflow_id : value;
  matches : value;
  summary : value
}.

Definition is_str_key (k : key) : bool :=
  match k with KStr _ => true | _ => false end.

(** [Dict[str, Any]] *)
Definition is_str_dict (v : value) : bool :=
  match v with
  | VDict d => forallb is_str_key (map_to_list d).*1
  | _ => false
  end.

(** [List[Dict[str, Any]]] *)
Definition is_list_of_str_dicts (v : value) : bool :=
  match v with
  | VList l => forallb is_str_dict l
  | _ => false
  end.

Definition is_str (v : value) : bool :=
  match v with VStr _ => true | _ => false end.

(** Input of the declared types is stored as it is.  What pydantic does
    with other input (coercion or rejection) depends on its version; here
    such input is rejected. *)
Definition BOMComparisonResult_new (wid ms sm : value) : res BOMComparisonResult :=
  if (is_str wid && is_list_of_str_dicts ms && is_str_dict sm)%bool
  then Ok {| workflow_id := wid; matches := ms; summary := sm |}
  else Raise (Exn "ValidationError" "validation errors for BOMComparisonResult").

(* ===================================================================== *)
(** ** Effects: the world, the trace, the monad *)
(* ===================================================================== *)

Inductive level := INFO | WARNING | ERROR.

(** The calls that leave the modelled code. *)
Inductive extcall :=
| CReadText (path : string)
| CMkdir (path : string)
| CWriteJson (path : string) (v : value)
| CUtcnow
| CProgress (stage : string) (progress : Qc) (message : string)
| CNew (class : string)
| CSupplierBOM (path : string)
| CMatchKB (materials items : value) (wid : string)
| CCompare (materials items : value)
| CStats.

(** What a run leaves behind, in order: log records, the calls made with
    what they returned or raised, and each stage result handed to
    [_save_stage_result]. *)
Inductive event :=
| ELog (lvl : level) (msg : string)
| ECall (c : extcall) (r : res value)
| ESave (wid stage : string) (result : value).

Definition enc_res {A} (enc : A -> value) (r : res A) : res value :=
  match r with
  | Ok a => Ok (enc a)
  | Raise e => Raise e
  end.

Section Pipeline.

(** The state of everything outside the program. *)
Context {W : Type}.

(** An operation of the outside world: it may raise and it may change
    the world. *)
Definition ext (A : Type) : Type := W -> res A * W.

Record out (A : Type) := Out {
  result : res A;
  world_after : W;
  events : list event
}.
Arguments Out {A} _ _ _.
Arguments result {A} _.
Arguments world_after {A} _.
Arguments events {A} _.

Definition M (A : Type) : Type := W -> out A.

Global Instance M_ret : MRet M := fun A a w => Out (Ok a) w [].

Global Instance M_bind : MBind M := fun A B f m w =>
  let o := m w in
  match result o with
  | Ok a =>
      let o' := f a (world_after o) in
      Out (result o') (world_after o') (events o ++ events o')
  | Raise e => Out (Raise e) (world_after o) (events o)
  end.

Definition raise {A} (e : exn) : M A := fun w => Out (Raise e) w [].

Definition emit (ev : event) : M unit := fun w => Out (Ok tt) w [ev].

(** [logger.info], [logger.warning], [logger.error] *)
Definition log (lvl : level) (msg : string) : M unit := emit (ELog lvl msg).

(** Pure code inside effectful code. *)
Definition lift {A} (r : res A) : M A := fun w => Out r w [].

(** A call to the outside; [enc] is how the returned object shows in
    the trace. *)
Definition call {A} (c : extcall) (enc : A -> value) (f : ext A) : M A :=
  fun w =>
    let '(r, w') := f w in
    Out r w' [ECall c (enc_res enc r)].

(** [try: body except Exception as e: handler] *)
Definition try_except {A} (body : M A) (handler : exn -> M A) : M A :=
  fun w =>
    let o := body w in
    match result o with
    | Ok _ => o
    | Raise e =>
        let o' := handler e (world_after o) in
        Out (result o') (world_after o') (events o ++ events o')
    end.

Definition opaque {A} (_ : A) : value := VNone.
Definition unit_value (_ : unit) : value := VNone.

(* =================================================================== *)
(** ** [gemini_client.GeminiClient] *)
(* =================================================================== *)

(** Whatever object is passed as [gemini_client]: the agents only hold
    it, so it is taken by its methods. *)
Record GeminiClient := {
  api_key : option string;
  translate_text : string -> string -> string -> ext string;
  extract_materials : string -> ext value;
  classify_qa_item : string -> ext value
}.

(** The class of [gemini_client.py], whose methods are mocks. *)
Definition GeminiClient_mock (key : option string) : GeminiClient := {|
  api_key := key;
  translate_text := fun text _ _ w => (Ok text, w);
  extract_materials := fun _ w =>
    (Ok (dict_of [("materials", VList []); ("confidence", VFloat (dec 8 10))]), w);
  classify_qa_item := fun _ w =>
    (Ok (dict_of [("classification", VInt 1); ("confidence", VStr "high")]), w)
|}.

(* =================================================================== *)
(** ** The outside world and the collaborators *)
(* =================================================================== *)

(** [Optional[Callable]]: called as [progress_callback(stage, progress,
    message)] and awaited. *)
Definition progress_callback : Type := string -> Qc -> string -> ext unit.

(** The operating system, and the classes of [supplier_bom_agent],
    [comparison_agent], [database.knowledge_base] and
    [database.item_matcher], which the orchestrator imports and whose
    modules are not among the sources: each is taken with the
    constructor and the one method the orchestrator calls.
    [*_bool] is [bool(obj)] as [if obj:] evaluates it. *)
Record Collaborators := {
  (** [open(path, 'r', encoding='utf-8').read()] *)
  read_text : string -> ext string;
  (** [Path(path).mkdir(parents=True, exist_ok=True)] *)
  mkdir : string -> ext unit;
  (** [open(path, 'w', encoding='utf-8')] and [json.dump] into it *)
  write_json : string -> value -> ext unit;
  (** [datetime.utcnow().isoformat()] *)
  utcnow_isoformat : ext string;

  SupplierBOMAgent : Type;
  SupplierBOMAgent_new : GeminiClient -> ext SupplierBOMAgent;
  process_supplier_bom : SupplierBOMAgent -> string -> ext value;

  ComparisonAgent : Type;
  ComparisonAgent_new : GeminiClient -> ext ComparisonAgent;
  compare_materials : ComparisonAgent -> value -> value -> ext value;

  KnowledgeBase : Type;
  KnowledgeBase_new : ext KnowledgeBase;
  KnowledgeBase_bool : KnowledgeBase -> bool;
  get_processing_stats : KnowledgeBase -> ext value;

  ItemMatcher : Type;
  ItemMatcher_new : KnowledgeBase -> ext ItemMatcher;
  ItemMatcher_bool : ItemMatcher -> bool;
  match_items_with_knowledge_base :
    ItemMatcher -> value -> value -> string -> ext value
}.

Variable env : Collaborators.

(* =================================================================== *)
(** ** [translation_agent.TranslationAgent] *)
(* =================================================================== *)

Record TranslationAgent := { translation_gemini_client : GeminiClient }.

Definition process_document (self : TranslationAgent)
    (document_path source_language target_language : string) : M value :=
  try_except
    (content ← call (CReadText document_path) VStr (read_text env document_path);
     let translated_content := content in
     mret (dict_of [ ("original_content", VStr content);
                     ("translated_content", VStr translated_content);
                     ("source_language", VStr source_language);
                     ("target_language", VStr target_language);
                     ("translation_confidence", VFloat (dec 95 100)) ]))
    (fun e =>
       log ERROR ("Translation failed: " ++ exn_str e);;
       raise e).

(* =================================================================== *)
(** ** [extraction_agent.ExtractionAgent] *)
(* =================================================================== *)

Record ExtractionAgent := { extraction_gemini_client : GeminiClient }.

Definition mock_material : value :=
  dict_of [ ("qa_material_name", VStr "Sample Material 1");
            ("qa_excerpt", VStr "Sample excerpt from document");
            ("part_number", VStr "P001");
            ("quantity", VStr "10");
            ("unit_of_measure", VStr "pcs");
            ("vendor_name", VStr "Sample Vendor");
            ("qa_classification_label", VInt 1);
            ("qa_confidence_level", VStr "high");
            ("qc_process_step", VStr "Step 1");
            ("consumable_jigs_tools", VBool false) ].

Definition extract_materials_with_qa_classification (self : ExtractionAgent)
    (content : value) : M value :=
  try_except
    (let materials := [mock_material] in
     mret (dict_of [ ("materials", VList materials);
                     ("extraction_confidence", VFloat (dec 9 10));
                     ("total_extracted", VInt (Z.of_nat (length materials))) ]))
    (fun e =>
       log ERROR ("Extraction failed: " ++ exn_str e);;
       raise e).

(* =================================================================== *)
(** ** [agent_orchestrator.AgentOrchestrator] *)
(* =================================================================== *)

Record AgentOrchestrator := {
  gemini_client : GeminiClient;
  translation_agent : TranslationAgent;
  extraction_agent : ExtractionAgent;
  supplier_bom_agent : SupplierBOMAgent env;
  comparison_agent : ComparisonAgent env;
  knowledge_base : option (KnowledgeBase env);
  item_matcher : option (ItemMatcher env)
}.

(** [__init__] *)
Definition AgentOrchestrator_init (client : GeminiClient) : M AgentOrchestrator :=
  let ta := {| translation_gemini_client := client |} in
  let ea := {| extraction_gemini_client := client |} in
  sa ← call (CNew "SupplierBOMAgent") opaque (SupplierBOMAgent_new env client);
  ca ← call (CNew "ComparisonAgent") opaque (ComparisonAgent_new env client);
  '(kb, im) ←
    try_except
      (kb ← call (CNew "KnowledgeBase") opaque (KnowledgeBase_new env);
       im ← call (CNew "ItemMatcher") opaque (ItemMatcher_new env kb);
       mret (Some kb, Some im))
      (fun e =>
         log WARNING ("Failed to initialize knowledge base: " ++ exn_str e);;
         mret (None, None));
  log INFO "Enhanced Autonomous Agent Orchestrator initialized with QA classification and Knowledge Base";;
  mret {| gemini_client := client;
          translation_agent := ta;
          extraction_agent := ea;
          supplier_bom_agent := sa;
          comparison_agent := ca;
          knowledge_base := kb;
          item_matcher := im |}.

Definition stage_file (wid stage : string) : string :=
  "results/" ++ wid ++ "/" ++ stage ++ "_result.json".

(** [_save_stage_result] *)
Definition _save_stage_result (wid stage : string) (result : value) : M unit :=
  emit (ESave wid stage result);;
  try_except
    (let stage_dir := "results/" ++ wid in
     call (CMkdir stage_dir) unit_value (mkdir env stage_dir);;
     call (CWriteJson (stage_file wid stage) result) unit_value
          (write_json env (stage_file wid stage) result);;
     log INFO ("Saved " ++ stage ++ " results for workflow " ++ wid))
    (fun e => log WARNING ("Failed to save stage result: " ++ exn_str e)).

(** [if progress_callback: await progress_callback(stage, progress, message)] *)
Definition report (cb : option progress_callback)
    (stage : string) (progress : Z) (message : string) : M unit :=
  match cb with
  | Some f =>
      call (CProgress stage (Qc_of_Z progress) message) unit_value
           (f stage (Qc_of_Z progress) message)
  | None => mret tt
  end.

(** [if not result or not result.get(key): raise Exception(failure)] *)
Definition require_output (result : value) (key failure : string) : M unit :=
  if truthy result then
    v ← lift (py_get result key VNone);
    if truthy v then mret tt else raise (Exn "Exception" failure)
  else raise (Exn "Exception" failure).

(** [obj if obj else None], for an attribute that holds an object or [None] *)
Definition if_truthy {A} (b : A -> bool) (o : option A) : option A :=
  match o with
  | Some a => if b a then Some a else None
  | None => None
  end.

Definition is_successful (m : value) : res bool :=
  v ← py_get m "confidence_score" (VInt 0); py_gt_float v (dec 5 10).

Definition is_knowledge_base_match (m : value) : res bool :=
  v ← py_get m "has_previous_match" (VBool false); Ok (truthy v).

(** The [try] block of [process_documents_enhanced]. *)
Definition enhanced_body (self : AgentOrchestrator)
    (qa_document_path supplier_bom_path wid : string)
    (cb : option progress_callback) : M value :=
  (* Stage 1 *)
  report cb "translation" 5 "Translation agent processing QA document...";;
  translation_result ←
    process_document (translation_agent self) qa_document_path "ja" "en";
  _save_stage_result wid "translation" translation_result;;
  require_output translation_result "translated_content"
    "Translation failed - no translated content received";;
  report cb "translation" 30 "Translation completed successfully";;
  (* Stage 2 *)
  report cb "extraction" 35
    "Extraction agent processing materials with QA classification...";;
  content ← lift (py_subscript translation_result "translated_content");
  extraction_result ←
    extract_materials_with_qa_classification (extraction_agent self) content;
  _save_stage_result wid "extraction" extraction_result;;
  require_output extraction_result "materials"
    "Material extraction failed - no materials extracted";;
  extracted_materials ← lift (py_subscript extraction_result "materials");
  n_materials ← lift (py_len extracted_materials);
  log INFO ("Extracted " ++ str_of_nat n_materials ++ " materials with QA classification");;
  report cb "extraction" 60
    ("Extracted " ++ str_of_nat n_materials ++ " materials with QA classification");;
  (* Stage 3 *)
  report cb "supplier_bom" 65 "Supplier BOM agent processing Excel/CSV data...";;
  supplier_result ←
    call (CSupplierBOM supplier_bom_path) id
         (process_supplier_bom env (supplier_bom_agent self) supplier_bom_path);
  _save_stage_result wid "supplier_bom" supplier_result;;
  require_output supplier_result "items"
    "Supplier BOM processing failed - no items extracted";;
  supplier_items ← lift (py_subscript supplier_result "items");
  n_items ← lift (py_len supplier_items);
  log INFO ("Processed " ++ str_of_nat n_items ++ " supplier BOM items");;
  report cb "supplier_bom" 80
    ("Processed " ++ str_of_nat n_items ++ " supplier BOM items");;
  (* Stage 4 *)
  report cb "comparison" 85 "Enhanced comparison agent using knowledge base...";;
  enhanced_matches ←
    match if_truthy (ItemMatcher_bool env) (item_matcher self) with
    | Some matcher =>
        call (CMatchKB extracted_materials supplier_items wid) id
             (match_items_with_knowledge_base env matcher
                extracted_materials supplier_items wid)
    | None =>
        call (CCompare extracted_materials supplier_items) id
             (compare_materials env (comparison_agent self)
                extracted_materials supplier_items)
    end;
  report cb "comparison" 95 "Knowledge base matching completed";;
  (* the dictionary display, entry by entry *)
  total_materials ← lift (py_len extracted_materials);
  total_supplier_items ← lift (py_len supplier_items);
  successful_matches ← lift (count_where is_successful enhanced_matches);
  knowledge_base_matches ←
    lift (count_where is_knowledge_base_match enhanced_matches);
  processing_date ← call CUtcnow VStr (utcnow_isoformat env);
  knowledge_base_stats ←
    match if_truthy (KnowledgeBase_bool env) (knowledge_base self) with
    | Some kb => call CStats id (get_processing_stats env kb)
    | None => mret (dict_of [])
    end;
  qa_classification_summary ←
    lift (_generate_qa_classification_summary enhanced_matches);
  let final_result :=
    dict_of [
      ("workflow_id", VStr wid);
      ("matches", enhanced_matches);
      ("summary", dict_of [
         ("total_materials", VInt (Z.of_nat total_materials));
         ("total_supplier_items", VInt (Z.of_nat total_supplier_items));
         ("successful_matches", VInt (Z.of_nat successful_matches));
         ("knowledge_base_matches", VInt (Z.of_nat knowledge_base_matches));
         ("processing_date", VStr processing_date);
         ("enhanced_matching", VBool true) ]);
      ("knowledge_base_stats", knowledge_base_stats);
      ("qa_classification_summary", qa_classification_summary) ] in
  _save_stage_result wid "final" final_result;;
  report cb "completed" 100 "Processing completed successfully";;
  log INFO ("Enhanced workflow " ++ wid ++ " completed successfully");;
  mret final_result.

Definition process_documents_enhanced (self : AgentOrchestrator)
    (qa_document_path supplier_bom_path wid : string)
    (cb : option progress_callback) : M value :=
  log INFO ("Starting enhanced autonomous workflow for " ++ wid);;
  try_except
    (enhanced_body self qa_document_path supplier_bom_path wid cb)
    (fun e =>
       log ERROR ("Enhanced workflow failed for " ++ wid ++ ": " ++ exn_str e);;
       report cb "error" 0 ("Processing failed: " ++ exn_str e);;
       raise e).

(** The legacy entry point. *)
Definition process_documents (self : AgentOrchestrator)
    (qa_document_path supplier_bom_path wid : string)
    (cb : option progress_callback) : M BOMComparisonResult :=
  result ← process_documents_enhanced self qa_document_path supplier_bom_path wid cb;
  w ← lift (py_subscript result "workflow_id");
  m ← lift (py_subscript result "matches");
  s ← lift (py_subscript result "summary");
  lift (BOMComparisonResult_new w m s).

End Pipeline.

Arguments Out {W A} _ _ _.
Arguments result {W A} _.
Arguments world_after {W A} _.
Arguments events {W A} _.

(* ===================================================================== *)
(** ** A small world to run the pipeline in *)
(* ===================================================================== *)

Module Demo.

(** The world is a file system of text files. *)
Definition world : Type := gmap string string.

Definition FileNotFoundError (path : string) : exn :=
  Exn "FileNotFoundError" ("[Errno 2] No such file or directory: '" ++ path ++ "'").

Definition supplier_item : value :=
  dict_of [ ("item_name", VStr "Bolt M6x20"); ("part_number", VStr "B-100") ].

Definition a_match : value :=
  dict_of [ ("confidence_score", VFloat (dec 8 10));
            ("qa_classification_label", VInt 1);
            ("qa_confidence_level", VStr "high") ].

(** Files are read from the world; the supplier sheet yields one item
    per run when it exists and an empty result otherwise; the knowledge
    base initialises iff [kb_up]. *)
Definition env (kb_up : bool) : @Collaborators world := {|
  read_text := fun path w =>
    match w !! path with
    | Some text => (Ok text, w)
    | None => (Raise (FileNotFoundError path), w)
    end;
  mkdir := fun _ w => (Ok tt, w);
  write_json := fun path _ w => (Ok tt, <[path := "{}"]> w);
  utcnow_isoformat := fun w => (Ok "2024-01-01T00:00:00", w);
  SupplierBOMAgent := unit;
  SupplierBOMAgent_new := fun _ w => (Ok tt, w);
  process_supplier_bom := fun _ path w =>
    match w !! path with
    | Some _ => (Ok (dict_of [("items", VList [supplier_item])]), w)
    | None => (Ok (dict_of [("items", VList [])]), w)
    end;
  ComparisonAgent := unit;
  ComparisonAgent_new := fun _ w => (Ok tt, w);
  compare_materials := fun _ _ _ w => (Ok (VList [a_match]), w);
  KnowledgeBase := unit;
  KnowledgeBase_new := fun w =>
    if kb_up then (Ok tt, w)
    else (Raise (Exn "OperationalError" "unable to open database file"), w);
  KnowledgeBase_bool := fun _ => true;
  get_processing_stats := fun _ w => (Ok (dict_of [("total_entries", VInt 0)]), w);
  ItemMatcher := unit;
  ItemMatcher_new := fun _ w => (Ok tt, w);
  ItemMatcher_bool := fun _ => true;
  match_items_with_knowledge_base := fun _ _ _ _ w => (Ok (VList [a_match]), w)
|}.

Definition client : @GeminiClient world := GeminiClient_mock None.

Definition files : world :=
  <["qa.txt" := "Bolt M6, B-100, 4 pcs"]> (<["bom.csv" := "item,part"]> ∅).

(** A callback that always raises. *)
Definition broken_callback : @progress_callback world :=
  fun _ _ _ w => (Raise (Exn "ConnectionError" "websocket closed"), w).

(** A callback that does nothing. *)
Definition quiet_callback : @progress_callback world :=
  fun _ _ _ w => (Ok tt, w).

(** An orchestrator as [__init__] leaves it when the knowledge base is
    down. *)
Definition orchestrator_without_kb : AgentOrchestrator (env false) := {|
  gemini_client := client;
  translation_agent := {| translation_gemini_client := client |};
  extraction_agent := {| extraction_gemini_client := client |};
  supplier_bom_agent := tt : SupplierBOMAgent (env false);
  comparison_agent := tt : ComparisonAgent (env false);
  knowledge_base := None;
  item_matcher := None
|}.

End Demo.

(* ===================================================================== *)
(** ** Vocabulary of the properties *)
(* ===================================================================== *)

(** *** Match records the summarizer can read *)

Definition hashable (v : value) : bool := is_ok (hash_key v).

(** A match record as the matcher is meant to produce it: a dictionary
    whose [qa_classification_label], when present, can be a dictionary
    key, and whose [qa_confidence_level], when present, is a string. *)
Definition summarizable (m : value) : bool :=
  match m with
  | VDict d =>
      match d !! KStr "qa_classification_label" with
      | Some v => hashable v
      | None => true
      end
      && match d !! KStr "qa_confidence_level" with
         | Some v => is_str v
         | None => true
         end
  | _ => false
  end.

(** The bucket of the confidence distribution a match is counted under,
    in the words of the specification: a missing level counts as
    ["medium"]; a level that is not high, medium or low after
    lower-casing is counted nowhere. *)
Definition spec_confidence_bucket (m : value) : option string :=
  match m with
  | VDict d =>
      match d !! KStr "qa_confidence_level" with
      | None => Some "medium"
      | Some (VStr s) =>
          if bool_decide (lower s ∈ ["high"; "medium"; "low"]) then Some (lower s)
          else None
      | Some _ => None
      end
  | _ => None
  end.

Definition spec_bucket_count (b : string) (ms : list value) : Z :=
  Z.of_nat (length (filter (fun m => spec_confidence_bucket m = Some b) ms)).

Definition indicator (b : string) (x : value) : Z :=
  if bool_decide (spec_confidence_bucket x = Some b) then 1 else 0.

Definition bump (s b : string) : Z := if bool_decide (s = b) then 1 else 0.

Definition distribution (h m l : Z) : gmap string Z :=
  <["low" := l]> (<["medium" := m]> (<["high" := h]> ∅)).

(** *** Stage results *)

(** [result] is a dictionary with a truthy entry [key]. *)
Definition usable (key : string) (r : value) : bool :=
  match r with
  | VDict d =>
      match d !! KStr key with
      | Some v => truthy v
      | None => false
      end
  | _ => false
  end.

(** The entry of a stage's result that the orchestrator requires. *)
Definition stage_key (stage : string) : option string :=
  if bool_decide (stage = "translation") then Some "translated_content"
  else if bool_decide (stage = "extraction") then Some "materials"
  else if bool_decide (stage = "supplier_bom") then Some "items"
  else None.

Definition translation_record (content src tgt : string) : value :=
  dict_of [ ("original_content", VStr content);
            ("translated_content", VStr content);
            ("source_language", VStr src);
            ("target_language", VStr tgt);
            ("translation_confidence", VFloat (dec 95 100)) ].

Definition extraction_record : value :=
  dict_of [ ("materials", VList [mock_material]);
            ("extraction_confidence", VFloat (dec 9 10));
            ("total_extracted", VInt 1) ].

Definition final_record (wid : string) (ms sm st qs : value) : value :=
  dict_of [ ("workflow_id", VStr wid);
            ("matches", ms);
            ("summary", sm);
            ("knowledge_base_stats", st);
            ("qa_classification_summary", qs) ].

(** *** Traces *)

(** What [_save_stage_result] leaves behind after its [ESave]. *)
Definition is_fs_call (ev : event) : bool :=
  match ev with
  | ECall (CMkdir _) _ | ECall (CWriteJson _ _) _ | ELog _ _ => true
  | _ => false
  end.

(** No progress report raised. *)
Definition calm (ev : event) : bool :=
  match ev with
  | ECall (CProgress _ _ _) (Raise _) => false
  | _ => true
  end.

(** A saved stage result carries the output the next stage needs. *)
Definition saved_usable (ev : event) : bool :=
  match ev with
  | ESave _ stage r =>
      match stage_key stage with
      | Some k => usable k r
      | None => true
      end
  | _ => true
  end.

Definition event_fine (ev : event) : bool := calm ev && saved_usable ev.

Definition ends_calmly_with (ev : list event) (x : event) : Prop :=
  exists pre, ev = (pre ++ [x])%list /\ Forall (fun e => calm e = true) pre.

(** What a run of the [try] block guarantees. *)
Definition body_post {W} (wid : string) (cb : option (@progress_callback W))
    (r : res value) (ev : list event) : Prop :=
  match r with
  | Ok v =>
      (exists ms sm st qs,
         v = final_record wid ms sm st qs /\ is_str_dict sm = true) /\
      Forall (fun e => event_fine e = true) ev
  | Raise e =>
      Forall (fun e => calm e = true) ev \/
      (is_Some cb /\
       exists st p m, ends_calmly_with ev (ECall (CProgress st p m) (Raise e)))
  end.

(** *** Reasoning about runs: the outcome of [m] from [w] satisfies [Q] *)

Definition wp {W A} (m : @M W A) (w : W)
    (Q : res A -> W -> list event -> Prop) : Prop :=
  Q (result (m w)) (world_after (m w)) (events (m w)).

Definition error_report (e : exn) (r : res value) : event :=
  ECall (CProgress "error" (Qc_of_Z 0) ("Processing failed: " ++ exn_str e)) r.

Definition start_log (wid : string) : event :=
  ELog INFO ("Starting enhanced autonomous workflow for " ++ wid).

Definition failure_log (wid : string) (e : exn) : event :=
  ELog ERROR ("Enhanced workflow failed for " ++ wid ++ ": " ++ exn_str e).

(** *** Runs in which every collaborator does its part *)

(** [len(v)] is defined. *)
Definition sized (v : value) : bool := is_ok (py_len v).

(** A supplier-BOM result with a non-empty collection of items. *)
Definition has_items (v : value) : bool :=
  match v with
  | VDict d =>
      match d !! KStr "items" with
      | Some items => truthy items && sized items
      | None => false
      end
  | _ => false
  end.

(** A match record whose [confidence_score], when present, is a number. *)
Definition scored (m : value) : bool :=
  match m with
  | VDict d =>
      match d !! KStr "confidence_score" with
      | Some v => is_ok (py_gt_float v (dec 5 10))
      | None => true
      end
  | _ => false
  end.

(** A list of match records. *)
Definition match_records (v : value) : bool :=
  match v with
  | VList l => forallb (fun m => summarizable m && scored m) l
  | _ => false
  end.

(** The call returned, and returned what its stage needs: the document
    has text, the supplier BOM has items, the comparison yields match
    records.  Saving stage results is best effort, so the file-system
    calls of [_save_stage_result] may do as they please. *)
Definition call_good (ev : event) : bool :=
  match ev with
  | ECall (CMkdir _) _ | ECall (CWriteJson _ _) _ => true
  | ECall (CReadText _) r =>
      match r with
      | Ok (VStr s) => negb (bool_decide (s = ""))
      | _ => false
      end
  | ECall (CSupplierBOM _) r =>
      match r with
      | Ok v => has_items v
      | Raise _ => false
      end
  | ECall (CCompare _ _) r =>
      match r with
      | Ok v => match_records v
      | Raise _ => false
      end
  | ECall _ (Raise _) => false
  | _ => true
  end.

(** Not a call to the knowledge base or to the matcher built on it. *)
Definition no_kb_call (ev : event) : bool :=
  match ev with
  | ECall (CMatchKB _ _ _) _ | ECall CStats _ => false
  | _ => true
  end.

(** [wp] for runs in which every call is good. *)
Definition wpg {W A} (m : @M W A) (w : W)
    (R : res A -> W -> list event -> Prop) : Prop :=
  wp m w (fun r w' ev => forallb call_good ev = true -> R r w' ev).

(** What a run without knowledge base guarantees when every call is good. *)
Definition fallback_post (wid : string) (r : res value) (ev : list event) : Prop :=
  exists ms sm qs,
    r = Ok (final_record wid ms sm (dict_of []) qs) /\
    (exists materials items, In (ECall (CCompare materials items) (Ok ms)) ev) /\
    Forall (fun e => no_kb_call e = true) ev.

(** *** The shape of material records *)

Definition field (k : string) (m : value) : option value :=
  match m with
  | VDict d => d !! KStr k
  | _ => None
  end.

Definition present (k : string) (m : value) : bool :=
  match field k m with Some _ => true | None => false end.

Definition int_field (k : string) (m : value) : bool :=
  match field k m with Some (VInt _) => true | _ => false end.

Definition bool_field (k : string) (m : value) : bool :=
  match field k m with Some (VBool _) => true | _ => false end.

Definition level_field (k : string) (m : value) : bool :=
  match field k m with
  | Some (VStr s) => bool_decide (s ∈ ["high"; "medium"; "low"])
  | _ => false
  end.

(** An ExtractedMaterial under the field names of the specification. *)
Definition spec_ExtractedMaterial (m : value) : bool :=
  present "material_name" m && present "excerpt" m && present "part_number" m
  && present "quantity" m && present "vendor_name" m
  && int_field "qa_classification_label" m
  && level_field "qa_confidence_level" m
  && present "qc_process_step" m && bool_field "is_consumable" m.

(** A material record under the field names the extraction agent writes. *)
Definition source_material (m : value) : bool :=
  present "qa_material_name" m && present "qa_excerpt" m && present "part_number" m
  && present "quantity" m && present "unit_of_measure" m && present "vendor_name" m
  && int_field "qa_classification_label" m
  && level_field "qa_confidence_level" m
  && present "qc_process_step" m && bool_field "consumable_jigs_tools" m.

(** *** Runs in the small world *)

Module DemoRuns.

Definition pipeline (bom : string) (cb : option (@progress_callback Demo.world)) :=
  process_documents_enhanced (Demo.env false) Demo.orchestrator_without_kb
    "qa.txt" bom "wf-1" cb Demo.files.


Definition connection_error : exn := Exn "ConnectionError" "websocket closed".

Definition first_report : event :=
  ECall (CProgress "translation" (Qc_of_Z 5)
           "Translation agent processing QA document...")
        (Raise connection_error).

Definition final_result : value :=
  Eval vm_compute in
    match result (pipeline "bom.csv" (Some Demo.quiet_callback)) with
    | Ok v => v
    | Raise _ => VNone
    end.

Definition empty_supplier_result : value := dict_of [("items", VList [])].

Definition database_error : exn :=
  Exn "OperationalError" "unable to open database file".

(** Three match records: one without a confidence level, one with a
    level that is no bucket, one in capitals. *)
Definition unlabelled_matches : list value :=
  [ dict_of [("qa_classification_label", VInt 2)];
    dict_of [("qa_confidence_level", VStr "Certain")];
    dict_of [("qa_confidence_level", VStr "LOW")] ].

End DemoRuns.

(* ===================================================================== *)
(** ** Vocabulary of further properties *)
(* ===================================================================== *)

(** *** The summarizer's label counts *)

(** The dictionary key a match is counted under in
    [classification_counts]: its [qa_classification_label], or 5 when it
    has none. *)
Definition label_of (m : value) : option key :=
  match m with
  | VDict d =>
      match hash_key (default (VInt 5) (d !! KStr "qa_classification_label")) with
      | Ok k => Some k
      | Raise _ => None
      end
  | _ => None
  end.

Definition label_count (k : key) (ms : list value) : Z :=
  Z.of_nat (length (filter (fun m => label_of m = Some k) ms)).

(** An entry of a dictionary of counts: absent when nothing was counted. *)
Definition count_entry (n : Z) : option Z :=
  if bool_decide (n = 0) then None else Some n.

(** What counting [n] more does to an entry. *)
Definition add_count (o : option Z) (n : Z) : option Z :=
  if bool_decide (n = 0) then o else Some (default 0 o + n).

(** A record with a confidence level that is not a string, such as a
    null: its label is fine, its level is there and has no [lower]. *)
Definition level_not_str (m : value) (v : value) : Prop :=
  exists d,
    m = VDict d /\
    hashable (default (VInt 5) (d !! KStr "qa_classification_label")) = true /\
    d !! KStr "qa_confidence_level" = Some v /\
    is_str v = false.

(** *** Traces of the pipeline *)

Definition is_log (ev : event) : bool :=
  match ev with ELog _ _ => true | _ => false end.

(** Nothing raised, the best-effort file-system calls of
    [_save_stage_result] apart. *)
Definition quiet (ev : event) : bool :=
  match ev with
  | ECall (CMkdir _) _ | ECall (CWriteJson _ _) _ => true
  | ECall _ (Raise _) => false
  | _ => true
  end.

(** The calls of the [try] block to the agents, the matcher, the
    knowledge base and the clock. *)
Definition is_collaborator (c : extcall) : bool :=
  match c with
  | CReadText _ | CUtcnow | CSupplierBOM _ | CMatchKB _ _ _ | CCompare _ _
  | CStats => true
  | _ => false
  end.

(** The trace ends with [x] and the log records that follow it; nothing
    raised before. *)
Definition aborted_by (ev : list event) (x : event) : Prop :=
  exists pre logs,
    ev = (pre ++ x :: logs)%list /\
    Forall (fun e => quiet e = true) pre /\
    Forall (fun e => is_log e = true) logs.

(** The stage results handed to [_save_stage_result], in order. *)
Definition saved_of (ev : list event) : list (string * value) :=
  omap (fun e => match e with ESave _ stage r => Some (stage, r) | _ => None end) ev.

(** The progress reports made, in order. *)
Definition reports_of (ev : list event) : list (string * Qc) :=
  omap (fun e => match e with
                 | ECall (CProgress stage p _) _ => Some (stage, p)
                 | _ => None
                 end) ev.

(** The outcomes of reading the document. *)
Definition reads_of (ev : list event) : list (res value) :=
  omap (fun e => match e with ECall (CReadText _) r => Some r | _ => None end) ev.

(** The milestones of a run, as [process_documents_enhanced] reports
    them. *)
Definition milestones : list (string * Qc) :=
  [ ("translation", Qc_of_Z 5); ("translation", Qc_of_Z 30);
    ("extraction", Qc_of_Z 35); ("extraction", Qc_of_Z 60);
    ("supplier_bom", Qc_of_Z 65); ("supplier_bom", Qc_of_Z 80);
    ("comparison", Qc_of_Z 85); ("comparison", Qc_of_Z 95);
    ("completed", Qc_of_Z 100) ].

Definition stages : list string :=
  ["translation"; "extraction"; "supplier_bom"; "final"].

(** The message of the exception a stage without usable output ends in. *)
Definition stage_message (stage : string) : option string :=
  if bool_decide (stage = "translation")
  then Some "Translation failed - no translated content received"
  else if bool_decide (stage = "extraction")
  then Some "Material extraction failed - no materials extracted"
  else if bool_decide (stage = "supplier_bom")
  then Some "Supplier BOM processing failed - no items extracted"
  else None.

(** What [if not result or not result.get(key): raise Exception(msg)]
    raises on a result that is not usable: the exception of the [raise],
    or that of [.get] on a truthy object that is no dictionary. *)
Definition require_failure (r : value) (msg : string) : exn :=
  match r with
  | VDict _ => Exn "Exception" msg
  | _ => if truthy r then AttributeError r "get" else Exn "Exception" msg
  end.

(** What every run of the [try] block guarantees about failures. *)
Definition body_failures (r : res value) (ev : list event) : Prop :=
  match r with
  | Ok _ => Forall (fun e => quiet e = true) ev
  | Raise e =>
      Forall (fun e => quiet e = true) ev \/
      exists c, quiet (ECall c (Raise e)) = false /\
                aborted_by ev (ECall c (Raise e))
  end /\
  (forall stage r0 k msg,
     In (stage, r0) (saved_of ev) ->
     stage_key stage = Some k -> usable k r0 = false ->
     stage_message stage = Some msg ->
     r = Raise (require_failure r0 msg)) /\
  (forall e, In (Raise e) (reads_of ev) ->
     r = Raise e /\ saved_of ev = [] /\
     In (ELog ERROR ("Translation failed: " ++ exn_str e)) ev).

(** How a failed [try] block shows to the caller of
    [process_documents_enhanced]: the failure is logged, reported through
    the callback when there is one, and raised (unless the report raises
    in its turn). *)
Definition failure_shown {W} (wid : string) (cb : option (@progress_callback W))
    (e : exn) (o : @out W value) : Prop :=
  In (failure_log wid e) (events o) /\
  match cb with
  | None => result o = Raise e
  | Some _ =>
      exists r,
        In (error_report e r) (events o) /\
        result o = Raise (match r with Ok _ => e | Raise e' => e' end)
  end.

(** *** What a run may touch *)

(** The file-system events of saving the result [r] of [stage] for
    workflow [wid]. *)
Definition save_event (wid stage : string) (r : value) (ev : event) : Prop :=
  match ev with
  | ECall (CMkdir p) _ => p = "results/" ++ wid
  | ECall (CWriteJson p v) _ => p = stage_file wid stage /\ v = r
  | ELog _ _ => True
  | _ => False
  end.

(** An event a run of [process_documents_enhanced] can leave: the paths,
    the workflow id and the materials are those of the run, and the
    matcher, the fallback comparison and the knowledge base are called
    only when the orchestrator's attributes say so. *)
Definition run_event {W} (env : @Collaborators W) (self : AgentOrchestrator env)
    (qa bom wid : string) (cb : option (@progress_callback W))
    (ev : event) : Prop :=
  match ev with
  | ELog _ _ => True
  | ESave w stage _ => w = wid /\ In stage stages
  | ECall c _ =>
      match c with
      | CReadText p => p = qa
      | CMkdir p => p = "results/" ++ wid
      | CWriteJson p _ => exists stage, In stage stages /\ p = stage_file wid stage
      | CUtcnow => True
      | CProgress _ _ _ => is_Some cb
      | CNew _ => False
      | CSupplierBOM p => p = bom
      | CMatchKB materials _ w =>
          materials = VList [mock_material] /\ w = wid /\
          is_Some (if_truthy (ItemMatcher_bool env) (item_matcher env self))
      | CCompare materials _ =>
          materials = VList [mock_material] /\
          if_truthy (ItemMatcher_bool env) (item_matcher env self) = None
      | CStats =>
          is_Some (if_truthy (KnowledgeBase_bool env) (knowledge_base env self))
      end
  end.

(** The file or directory a call names. *)
Definition path_of (c : extcall) : option string :=
  match c with
  | CReadText p | CMkdir p | CWriteJson p _ | CSupplierBOM p => Some p
  | _ => None
  end.

(** The files and the directory of a run: the two documents, the results
    directory of the workflow and one file per stage. *)
Definition run_paths (qa bom wid : string) : list string :=
  qa :: bom :: ("results/" ++ wid) :: map (stage_file wid) stages.

(** The materials handed to the matcher or to the fallback comparison. *)
Definition materials_of (c : extcall) : option value :=
  match c with
  | CMatchKB materials _ _ | CCompare materials _ => Some materials
  | _ => None
  end.

(** *** The order of a run *)

(** The reports that announce a stage as completed. *)
Definition completions : list (string * Qc) :=
  [ ("translation", Qc_of_Z 30); ("extraction", Qc_of_Z 60);
    ("supplier_bom", Qc_of_Z 80) ].

(** What every run of the [try] block guarantees about the order of its
    progress reports and of the stage results it saves. *)
Definition body_order {W} (cb : option (@progress_callback W))
    (r : res value) (ev : list event) : Prop :=
  match r with
  | Ok _ =>
      (saved_of ev).*1 = stages /\
      reports_of ev = match cb with Some _ => milestones | None => [] end
  | Raise _ =>
      (saved_of ev).*1 `prefix_of` stages /\
      reports_of ev `prefix_of` milestones /\
      (is_Some cb -> reports_of ev <> [])
  end /\
  (forall stage p,
     In (stage, p) completions -> In (stage, p) (reports_of ev) ->
     exists res k,
       In (stage, res) (saved_of ev) /\
       stage_key stage = Some k /\ usable k res = true).

(** *** The result of a run *)

(** The [summary] entry of the final result. *)
Definition run_summary (n_items successful kb_matches : nat) (date : string) : value :=
  dict_of [ ("total_materials", VInt 1);
            ("total_supplier_items", VInt (Z.of_nat n_items));
            ("successful_matches", VInt (Z.of_nat successful));
            ("knowledge_base_matches", VInt (Z.of_nat kb_matches));
            ("processing_date", VStr date);
            ("enhanced_matching", VBool true) ].

(** The supplier items handed to the matcher or to the fallback
    comparison. *)
Definition items_of (c : extcall) : option value :=
  match c with
  | CMatchKB _ items _ | CCompare _ items => Some items
  | _ => None
  end.

(** What the result [v] of a run that returned is made of, in terms of
    what its collaborators answered. *)
Definition result_made_of {W} (env : @Collaborators W) (self : AgentOrchestrator env)
    (wid : string) (v : value) (ev : list event) : Prop :=
  exists path supplied items n_items c ms successful kb_matches date st qs,
    v = final_record wid ms (run_summary n_items successful kb_matches date) st qs /\
    In (ECall (CSupplierBOM path) (Ok supplied)) ev /\
    py_subscript supplied "items" = Ok items /\
    py_len items = Ok n_items /\
    In (ECall c (Ok ms)) ev /\ items_of c = Some items /\
    count_where is_successful ms = Ok successful /\
    count_where is_knowledge_base_match ms = Ok kb_matches /\
    In (ECall CUtcnow (Ok (VStr date))) ev /\
    match if_truthy (KnowledgeBase_bool env) (knowledge_base env self) with
    | Some _ => In (ECall CStats (Ok st)) ev
    | None => st = dict_of []
    end /\
    _generate_qa_classification_summary ms = Ok qs /\
    In (ESave wid "final" v) ev.

Definition body_result {W} (env : @Collaborators W) (self : AgentOrchestrator env)
    (wid : string) (r : res value) (ev : list event) : Prop :=
  match r with
  | Ok v => result_made_of env self wid v ev
  | Raise _ => True
  end.

(** *** The outcome of [__init__] *)

Definition agent_classes : list string := ["SupplierBOMAgent"; "ComparisonAgent"].

Definition knowledge_classes : list string := ["KnowledgeBase"; "ItemMatcher"].

Definition init_warning (e : exn) : event :=
  ELog WARNING ("Failed to initialize knowledge base: " ++ exn_str e).

(** How [__init__] can end: with an orchestrator that holds a knowledge
    base and its matcher, no constructor having raised; with one that
    holds neither, the knowledge base or the matcher having failed to
    come up, which was logged; or with the exception of the supplier-BOM
    or comparison agent's constructor, before any knowledge base was
    tried. *)
Definition init_outcome {W} {env : @Collaborators W}
    (r : res (AgentOrchestrator env)) (ev : list event) : Prop :=
  match r with
  | Ok self =>
      match knowledge_base env self, item_matcher env self with
      | Some _, Some _ => forall class e, ~ In (ECall (CNew class) (Raise e)) ev
      | None, None =>
          exists class e,
            In class knowledge_classes /\
            In (ECall (CNew class) (Raise e)) ev /\ In (init_warning e) ev
      | _, _ => False
      end
  | Raise e =>
      (exists class,
         In class agent_classes /\ In (ECall (CNew class) (Raise e)) ev) /\
      (forall class r, In (ECall (CNew class) r) ev -> In class agent_classes)
  end.

(** *** A workflow from scratch *)

(** [AgentOrchestrator(gemini_client)] followed by one run of
    [process_documents_enhanced] on the orchestrator it returns. *)
Definition workflow {W} (env : @Collaborators W) (client : GeminiClient)
    (qa bom wid : string) (cb : option (@progress_callback W)) : M value :=
  self ← AgentOrchestrator_init env client;
  process_documents_enhanced env self qa bom wid cb.

(** Two orchestrators with the same supplier-BOM agent, comparison agent,
    knowledge base and matcher; their Gemini clients, and those of their
    translation and extraction agents, may differ. *)
Definition same_agents {W} {env : @Collaborators W}
    (s s' : AgentOrchestrator env) : Prop :=
  supplier_bom_agent env s = supplier_bom_agent env s' /\
  comparison_agent env s = comparison_agent env s' /\
  knowledge_base env s = knowledge_base env s' /\
  item_matcher env s = item_matcher env s'.

(** Two outcomes with the same trace and the same world, which raise the
    same exception or return values related by [R]. *)
Definition alike {W A A'} (R : A -> A' -> Prop)
    (o : @out W A) (o' : @out W A') : Prop :=
  events o = events o' /\
  world_after o = world_after o' /\
  match result o, result o' with
  | Ok a, Ok a' => R a a'
  | Raise e, Raise e' => e = e'
  | _, _ => False
  end.

(** *** Runs in which the matcher does its part *)

(** What the matcher of the knowledge base returned, when it returned,
    is a list of match records. *)
Definition matcher_good (ev : event) : bool :=
  match ev with
  | ECall (CMatchKB _ _ _) (Ok v) => match_records v
  | _ => true
  end.

(** *** More runs in the small world *)

Module MoreRuns.

Definition null_level_match : value :=
  dict_of [("qa_classification_label", VInt 3); ("qa_confidence_level", VNone)].

Definition run (qa bom : string) (cb : option (@progress_callback Demo.world)) :=
  process_documents_enhanced (Demo.env false) Demo.orchestrator_without_kb
    qa bom "wf-1" cb Demo.files.

Definition no_items : exn :=
  Exn "Exception" "Supplier BOM processing failed - no items extracted".

(** An orchestrator as [__init__] leaves it when the knowledge base is
    up. *)
Definition orchestrator_with_kb : AgentOrchestrator (Demo.env true) := {|
  gemini_client := Demo.client;
  translation_agent := {| translation_gemini_client := Demo.client |};
  extraction_agent := {| extraction_gemini_client := Demo.client |};
  supplier_bom_agent := tt : SupplierBOMAgent (Demo.env true);
  comparison_agent := tt : ComparisonAgent (Demo.env true);
  knowledge_base := Some (tt : KnowledgeBase (Demo.env true));
  item_matcher := Some (tt : ItemMatcher (Demo.env true))
|}.

Definition run_kb (cb : option (@progress_callback Demo.world)) :=
  process_documents_enhanced (Demo.env true) orchestrator_with_kb
    "qa.txt" "bom.csv" "wf-1" cb Demo.files.

(** The knowledge base comes up, its matcher does not. *)
Definition matcher_error : exn := Exn "RuntimeError" "embedding model not found".

Definition env_matcher_down : @Collaborators Demo.world := {|
  read_text := read_text (Demo.env true);
  mkdir := mkdir (Demo.env true);
  write_json := write_json (Demo.env true);
  utcnow_isoformat := utcnow_isoformat (Demo.env true);
  SupplierBOMAgent := unit;
  SupplierBOMAgent_new := fun _ w => (Ok tt, w);
  process_supplier_bom := fun _ _ w => (Ok (dict_of [("items", VList [])]), w);
  ComparisonAgent := unit;
  ComparisonAgent_new := fun _ w => (Ok tt, w);
  compare_materials := fun _ _ _ w => (Ok (VList [Demo.a_match]), w);
  KnowledgeBase := unit;
  KnowledgeBase_new := fun w => (Ok tt, w);
  KnowledgeBase_bool := fun _ => true;
  get_processing_stats := fun _ w => (Ok (dict_of []), w);
  ItemMatcher := unit;
  ItemMatcher_new := fun _ w => (Raise matcher_error, w);
  ItemMatcher_bool := fun _ => true;
  match_items_with_knowledge_base := fun _ _ _ _ w => (Ok (VList []), w)
|}.





(** A client with an API key. *)
Definition keyed_client : @GeminiClient Demo.world :=
  GeminiClient_mock (Some "secret").

End MoreRuns.

(* ===================================================================== *)
(** * Properties *)
(* ===================================================================== *)

(** ** The classification summarizer *)

Section SummaryFacts.

Lemma spec_bucket_count_cons b x ms :
  spec_bucket_count b (x :: ms) = indicator b x + spec_bucket_count b ms.
Proof.
  unfold spec_bucket_count, indicator. rewrite filter_cons.
  destruct (decide (spec_confidence_bucket x = Some b)) as [E|E].
  - rewrite (bool_decide_eq_true_2 _ E). simpl. lia.
  - rewrite (bool_decide_eq_false_2 _ E). lia.
Qed.

Lemma distribution_lookup h m l s :
  distribution h m l !! s =
    if bool_decide (s = "low") then Some l
    else if bool_decide (s = "medium") then Some m
    else if bool_decide (s = "high") then Some h
    else None.
Proof.
  unfold distribution. rewrite !lookup_insert, lookup_empty.
  repeat case_decide; repeat case_bool_decide; congruence.
Qed.

(** The update of [confidence_distribution] in the loop body. *)
Lemma distribution_bump h m l s :
  match distribution h m l !! s with
  | Some n => <[s := n + 1]> (distribution h m l)
  | None => distribution h m l
  end = distribution (h + bump s "high") (m + bump s "medium") (l + bump s "low").
Proof.
  rewrite distribution_lookup. unfold bump.
  destruct (bool_decide_reflect (s = "low")) as [->|Hl];
    [|destruct (bool_decide_reflect (s = "medium")) as [->|Hm];
      [|destruct (bool_decide_reflect (s = "high")) as [->|Hh]]];
    rewrite ?bool_decide_eq_false_2 by done;
    rewrite ?Z.add_0_r; try reflexivity;
    unfold distribution; apply map_eq; intros i; rewrite !lookup_insert;
    repeat case_decide; congruence.
Qed.

Lemma indicator_str (d : gmap key value) s b :
  d !! KStr "qa_confidence_level" = Some (VStr s) ->
  b ∈ ["high"; "medium"; "low"] ->
  indicator b (VDict d) = bump (lower s) b.
Proof.
  intros E Hb. unfold indicator, bump, spec_confidence_bucket. rewrite E.
  destruct (bool_decide_reflect (lower s ∈ ["high"; "medium"; "low"])) as [Hin|Hnin];
    destruct (bool_decide_reflect (lower s = b)) as [Heq|Hne].
  - subst. by rewrite bool_decide_eq_true_2.
  - rewrite bool_decide_eq_false_2; [done | congruence].
  - subst. done.
  - by rewrite bool_decide_eq_false_2.
Qed.

Lemma indicator_missing (d : gmap key value) b :
  d !! KStr "qa_confidence_level" = None ->
  indicator b (VDict d) = bump "medium" b.
Proof.
  intros E. unfold indicator, bump, spec_confidence_bucket. rewrite E.
  destruct (bool_decide_reflect ("medium" = b)) as [Heq|Hne].
  - subst. by rewrite bool_decide_eq_true_2.
  - rewrite bool_decide_eq_false_2; [done | congruence].
Qed.

Lemma step_summarizable c h m l x :
  summarizable x = true ->
  exists c',
    Summary.step (Summary.Acc c (distribution h m l)) x =
      Ok (Summary.Acc c' (distribution (h + indicator "high" x)
                                       (m + indicator "medium" x)
                                       (l + indicator "low" x))).
Proof.
  destruct x as [| | | | |?|d]; try done. simpl. intros [Hl Hc]%andb_prop.
  unfold Summary.step, py_get. simpl.
  assert (exists k, hash_key (default (VInt 5)
                      (d !! KStr "qa_classification_label")) = Ok k) as [k ->].
  { destruct (d !! KStr "qa_classification_label") as [v|]; simpl; [|eauto].
    unfold hashable in Hl. destruct (hash_key v); [eauto|done]. }
  simpl. eexists.
  destruct (d !! KStr "qa_confidence_level") as [[| | | |s| |]|] eqn:E;
    try done; simpl; rewrite distribution_bump.
  - rewrite !(indicator_str d s) by (done || set_solver). reflexivity.
  - rewrite !(indicator_missing d) by done. reflexivity.
Qed.

Lemma foldl_summarizable ms : forall c h m l,
  Forall (fun x => summarizable x = true) ms ->
  exists c',
    res_foldl Summary.step (Summary.Acc c (distribution h m l)) ms =
      Ok (Summary.Acc c' (distribution (h + spec_bucket_count "high" ms)
                                       (m + spec_bucket_count "medium" ms)
                                       (l + spec_bucket_count "low" ms))).
Proof.
  induction ms as [|x ms IH]; intros c h m l Hall.
  - exists c. simpl. unfold spec_bucket_count. simpl. by rewrite !Z.add_0_r.
  - inversion_clear Hall as [|?? Hx Hms].
    destruct (step_summarizable c h m l x Hx) as [c1 E1].
    destruct (IH c1 (h + indicator "high" x) (m + indicator "medium" x)
                 (l + indicator "low" x) Hms) as [c2 E2].
    exists c2. simpl. rewrite E1. simpl. rewrite E2.
    rewrite !spec_bucket_count_cons, !Z.add_assoc. reflexivity.
Qed.

Lemma distribution_value h m l :
  VDict (kmap KStr (VInt <$> distribution h m l)) =
  dict_of [("high", VInt h); ("medium", VInt m); ("low", VInt l)].
Proof.
  reflexivity.
Qed.

(** The summarizer on well-formed records, in terms of its two local
    dictionaries. *)
Lemma generate_summarizable ms :
  Forall (fun m => summarizable m = true) ms ->
  exists counts,
    _generate_qa_classification_summary (VList ms) =
      Ok (Summary.to_value
            (Summary.Acc counts
               (distribution (spec_bucket_count "high" ms)
                             (spec_bucket_count "medium" ms)
                             (spec_bucket_count "low" ms)))
            (length ms)).
Proof.
  intros Hall.
  destruct (foldl_summarizable ms ∅ 0 0 0 Hall) as [c E].
  exists c.
  unfold _generate_qa_classification_summary, Summary.generate. simpl.
  change Summary.init with (Summary.Acc ∅ (distribution 0 0 0)).
  by rewrite E.
Qed.

End SummaryFacts.

(** C5: the summarizer applied to the empty match list returns exactly
    [{classification_counts: {}, confidence_distribution: {high: 0,
    medium: 0, low: 0}, total_items: 0}]. *)
Theorem summary_of_empty_list :
  _generate_qa_classification_summary (VList []) =
    Ok (dict_of
          [ ("classification_counts", dict_of []);
            ("confidence_distribution",
               dict_of [("high", VInt 0); ("medium", VInt 0); ("low", VInt 0)]);
            ("total_items", VInt 0) ]).
Proof. reflexivity. Qed.

(** C6: for every list of match records, the summarizer does not raise;
    in the confidence distribution each bucket holds the number of matches
    that the specification assigns to it ([spec_confidence_bucket]: a
    match without [qa_confidence_level] goes to ["medium"], a match whose
    level is none of high, medium, low after lower-casing goes nowhere);
    and [total_items] is the length of the list. *)
Theorem summary_confidence_distribution (ms : list value) :
  Forall (fun m => summarizable m = true) ms ->
  exists counts,
    _generate_qa_classification_summary (VList ms) =
      Ok (dict_of
            [ ("classification_counts", VDict counts);
              ("confidence_distribution",
                 dict_of [ ("high", VInt (spec_bucket_count "high" ms));
                           ("medium", VInt (spec_bucket_count "medium" ms));
                           ("low", VInt (spec_bucket_count "low" ms)) ]);
              ("total_items", VInt (Z.of_nat (length ms))) ]).
Proof.
  intros Hall.
  destruct (generate_summarizable ms Hall) as [c E].
  exists (VInt <$> c). rewrite E.
  unfold Summary.to_value. cbn [Summary.classification_counts
                                Summary.confidence_distribution].
  by rewrite distribution_value.
Qed.

(** C6 at work: of three records, the one without a level is counted as
    medium, the one in capitals as low, the unknown level nowhere. *)
Lemma summary_confidence_distribution_witness :
  Forall (fun m => summarizable m = true) DemoRuns.unlabelled_matches /\
  exists counts,
    _generate_qa_classification_summary (VList DemoRuns.unlabelled_matches) =
      Ok (dict_of
            [ ("classification_counts", VDict counts);
              ("confidence_distribution",
                 dict_of [("high", VInt 0); ("medium", VInt 1); ("low", VInt 1)]);
              ("total_items", VInt 3) ]).
Proof.
  assert (H : Forall (fun m => summarizable m = true) DemoRuns.unlabelled_matches)
    by (repeat constructor).
  split; [exact H|].
  exact (summary_confidence_distribution DemoRuns.unlabelled_matches H).
Defined.

(** ** Rules for reasoning about runs *)

Section Rules.
Context {W : Type} (env : @Collaborators W).

Lemma wp_ret {A} (a : A) (w : W) Q : Q (Ok a) w [] -> wp (mret a) w Q.
Proof. done. Qed.

Lemma wp_raise {A} e (w : W) (Q : res A -> W -> list event -> Prop) :
  Q (Raise e) w [] -> wp (raise e) w Q.
Proof. done. Qed.

Lemma wp_lift {A} (r : res A) (w : W) Q : Q r w [] -> wp (lift r) w Q.
Proof. done. Qed.

Lemma wp_emit ev (w : W) Q : Q (Ok tt) w [ev] -> wp (emit ev) w Q.
Proof. done. Qed.

Lemma wp_log lvl msg (w : W) Q : Q (Ok tt) w [ELog lvl msg] -> wp (log lvl msg) w Q.
Proof. done. Qed.

Lemma wp_bind {A B} (m : M A) (f : A -> M B) (w : W) Q :
  wp m w (fun r w' ev =>
    match r with
    | Ok a => wp (f a) w' (fun r' w'' ev' => Q r' w'' (ev ++ ev')%list)
    | Raise e => Q (Raise e) w' ev
    end) ->
  wp (m ≫= f) w Q.
Proof.
  unfold wp, mbind, M_bind. destruct (result (m w)); simpl; done.
Qed.

Lemma wp_try {A} (m : M A) h (w : W) Q :
  wp m w (fun r w' ev =>
    match r with
    | Ok a => Q (Ok a) w' ev
    | Raise e => wp (h e) w' (fun r' w'' ev' => Q r' w'' (ev ++ ev')%list)
    end) ->
  wp (try_except m h) w Q.
Proof.
  unfold wp, try_except. destruct (result (m w)) eqn:E; simpl; [|done].
  by rewrite E.
Qed.

Lemma wp_call {A} c (enc : A -> value) (f : ext A) (w : W) Q :
  (forall r w', f w = (r, w') -> Q r w' [ECall c (enc_res enc r)]) ->
  wp (call c enc f) w Q.
Proof.
  intros H. unfold wp, call. destruct (f w) as [r w'] eqn:E. simpl.
  by apply H.
Qed.

(** [_save_stage_result] returns normally, whatever the file system does. *)
Lemma wp_save wid stage r (w : W) Q :
  (forall w' evs, Forall (fun ev => is_fs_call ev = true) evs ->
                  Q (Ok tt) w' (ESave wid stage r :: evs)) ->
  wp (_save_stage_result env wid stage r) w Q.
Proof.
  intros H. unfold _save_stage_result.
  apply wp_bind, wp_emit, wp_try, wp_bind, wp_call.
  intros [[]|e] w1 _.
  - apply wp_bind, wp_call. intros [[]|e] w2 _;
      apply wp_log, H; repeat constructor.
  - apply wp_log, H. repeat constructor.
Qed.

Lemma wp_report cb stage p msg (w : W) Q :
  match cb with
  | Some f =>
      forall r w', f stage (Qc_of_Z p) msg w = (r, w') ->
        Q r w' [ECall (CProgress stage (Qc_of_Z p) msg) (enc_res unit_value r)]
  | None => Q (Ok tt) w []
  end ->
  wp (report cb stage p msg) w Q.
Proof.
  destruct cb as [f|]; simpl; intros H; [by apply wp_call | done].
Qed.

Lemma wp_require r key msg (w : W) Q :
  (usable key r = true -> Q (Ok tt) w []) ->
  (usable key r = false -> forall e, Q (Raise e) w []) ->
  wp (require_output r key msg) w Q.
Proof.
  intros Hok Hbad. unfold require_output, usable in *.
  destruct (truthy r) eqn:Hr.
  - destruct r as [| | | | | |d]; try (by apply Hbad).
    apply wp_bind, wp_lift. simpl.
    destruct (d !! KStr key) as [v|]; simpl.
    + destruct (truthy v); [by apply wp_ret, Hok | by apply wp_raise, Hbad].
    + by apply wp_raise, Hbad.
  - apply wp_raise, Hbad. destruct r as [| | | | | |d]; try done.
    simpl in Hr. apply negb_false_iff, bool_decide_eq_true in Hr. by subst.
Qed.

Lemma wp_process_document self path src tgt (w : W) Q :
  (forall r w', read_text env path w = (r, w') ->
     match r with
     | Ok content =>
         Q (Ok (translation_record content src tgt)) w'
           [ECall (CReadText path) (Ok (VStr content))]
     | Raise e =>
         Q (Raise e) w'
           [ECall (CReadText path) (Raise e);
            ELog ERROR ("Translation failed: " ++ exn_str e)]
     end) ->
  wp (process_document env self path src tgt) w Q.
Proof.
  intros H. unfold process_document.
  apply wp_try, wp_bind, wp_call. intros [content|e] w' E; specialize (H _ _ E).
  - by apply wp_ret.
  - by apply wp_bind, wp_log, wp_raise.
Qed.

Lemma wp_extract self content (w : W) Q :
  Q (Ok extraction_record) w [] ->
  wp (extract_materials_with_qa_classification self content) w Q.
Proof. done. Qed.

(** *** Event lists *)

Lemma fs_call_fine ev : is_fs_call ev = true -> event_fine ev = true.
Proof. by destruct ev as [| [] |]. Qed.

Lemma fs_call_calm ev : is_fs_call ev = true -> calm ev = true.
Proof. by destruct ev as [| [] |]. Qed.

Lemma Forall_fs_fine evs :
  Forall (fun ev => is_fs_call ev = true) evs ->
  Forall (fun ev => event_fine ev = true) evs.
Proof. apply List.Forall_impl, fs_call_fine. Qed.

Lemma Forall_fs_calm evs :
  Forall (fun ev => is_fs_call ev = true) evs ->
  Forall (fun ev => calm ev = true) evs.
Proof. apply List.Forall_impl, fs_call_calm. Qed.

Lemma save_fine wid stage k r :
  stage_key stage = Some k -> usable k r = true ->
  event_fine (ESave wid stage r) = true.
Proof. intros Hk Hu. unfold event_fine, saved_usable. by rewrite Hk, Hu. Qed.

Lemma ends_calmly_app l1 l2 x :
  Forall (fun e => calm e = true) l1 ->
  ends_calmly_with l2 x -> ends_calmly_with (l1 ++ l2) x.
Proof.
  intros H1 (pre & -> & H2). exists (l1 ++ pre)%list.
  split; [by rewrite app_assoc | by apply Forall_app_2].
Qed.

Lemma ends_calmly_last x : ends_calmly_with [x] x.
Proof. exists []. by split. Qed.

End Rules.

(** One step of a run. *)
Ltac wp_step :=
  lazymatch goal with
  | |- wp (mbind _ _) _ _ => apply wp_bind
  | |- wp (mret _) _ _ => apply wp_ret
  | |- wp (raise _) _ _ => apply wp_raise
  | |- wp (lift _) _ _ => apply wp_lift
  | |- wp (log _ _) _ _ => apply wp_log
  | |- wp (report _ _ _ _) _ _ => apply wp_report
  | |- wp (_save_stage_result _ _ _ _) _ _ => apply wp_save; intros ? ? ?
  | |- wp (require_output _ _ _) _ _ => apply wp_require; [intros ?|intros ? ?]
  | |- wp (process_document _ _ _ _ _) _ _ =>
      apply wp_process_document; intros [?|?] ? ?
  | |- wp (extract_materials_with_qa_classification _ _) _ _ => apply wp_extract
  | |- wp (call _ _ _) _ _ => apply wp_call; intros [?|?] ? ?
  | |- wp (try_except _ _) _ _ => apply wp_try
  | |- wp (match ?o with Some _ => _ | None => _ end) _ _ => destruct o eqn:?
  | |- match ?o with Some _ => _ | None => _ end => destruct o eqn:?
  | |- forall r w', _ = (r, w') -> _ => intros [?|?] ? ?
  | |- match ?r with Ok _ => _ | Raise _ => _ end => destruct r eqn:?
  end; cbv beta iota zeta.

Ltac solve_events :=
  repeat first
    [ apply Forall_nil_2
    | apply Forall_app_2
    | apply Forall_cons_2
    | apply Forall_fs_fine; assumption
    | apply Forall_fs_calm; assumption
    | eapply save_fine; [reflexivity | assumption]
    | reflexivity ].

Ltac solve_ends :=
  repeat (apply ends_calmly_app; [solve [solve_events] |]);
  apply ends_calmly_last.

(** ** The pipeline *)

Section PipelineFacts.
Context {W : Type} (env : @Collaborators W).

(** Every run of the [try] block either returns the final record, with
    all reports delivered and all stage outputs usable, or raises; and
    when a progress report raised, that was the last thing it did. *)
Lemma enhanced_body_spec self qa bom wid cb (w : W) :
  wp (enhanced_body env self qa bom wid cb) w (fun r _ ev => body_post wid cb r ev).
Proof.
  unfold enhanced_body.
  repeat wp_step.
  all: unfold body_post.
  all: try (first [ right; split; [by eexists|]; do 3 eexists; solve [solve_ends]
                  | left; solve [solve_events] ]).
  all: split; [do 4 eexists; split; [reflexivity | vm_compute; reflexivity]
              | solve [solve_events]].
Qed.

(** [process_documents_enhanced] in terms of its [try] block. *)
Lemma enhanced_ok self qa bom wid cb (w : W) v :
  result (enhanced_body env self qa bom wid cb w) = Ok v ->
  process_documents_enhanced env self qa bom wid cb w =
    Out (Ok v) (world_after (enhanced_body env self qa bom wid cb w))
        (start_log wid :: events (enhanced_body env self qa bom wid cb w)).
Proof.
  intros E. unfold process_documents_enhanced, mbind, M_bind, try_except.
  simpl. rewrite E. simpl. by rewrite E.
Qed.

Lemma enhanced_raise self qa bom wid cb (w : W) e :
  result (enhanced_body env self qa bom wid cb w) = Raise e ->
  let b := enhanced_body env self qa bom wid cb w in
  let o := process_documents_enhanced env self qa bom wid cb w in
  match cb with
  | Some f =>
      exists r,
        result o = Raise (match r with Ok _ => e | Raise e' => e' end) /\
        events o = (start_log wid :: events b ++
                     [failure_log wid e; error_report e (enc_res unit_value r)])%list
  | None =>
      result o = Raise e /\
      events o = (start_log wid :: events b ++ [failure_log wid e])%list
  end.
Proof.
  intros E. simpl.
  unfold process_documents_enhanced, mbind, M_bind, try_except. simpl.
  rewrite E. simpl.
  destruct cb as [f|]; simpl.
  - unfold call.
    destruct (f "error" (Qc_of_Z 0) ("Processing failed: " ++ exn_str e)
                (world_after (enhanced_body env self qa bom wid (Some f) w)))
      as [[[]|e'] w'] eqn:Ef; simpl.
    + by exists (Ok tt).
    + by exists (Raise e').
  - done.
Qed.


Lemma enhanced_result_shape self qa bom wid cb (w : W) v :
  result (process_documents_enhanced env self qa bom wid cb w) = Ok v ->
  result (enhanced_body env self qa bom wid cb w) = Ok v.
Proof.
  intros E. destruct (result (enhanced_body env self qa bom wid cb w)) as [v'|e] eqn:Eb.
  - rewrite (enhanced_ok _ _ _ _ _ _ _ Eb) in E. simpl in E. congruence.
  - pose proof (enhanced_raise _ _ _ _ _ _ _ Eb) as H. cbv zeta in H.
    destruct cb as [f|]; [destruct H as (r & H & _)|destruct H as [H _]];
      congruence.
Qed.

(** *** Where a progress report that raised can sit in a trace *)

Lemma uncalm_is_last (l1 : list event) x pre y post :
  Forall (fun e => calm e = true) l1 ->
  (l1 ++ [x] = pre ++ y :: post)%list -> calm y = false ->
  y = x /\ post = [].
Proof.
  revert pre. induction l1 as [|a l1 IH]; intros pre Hl E Hy.
  - destruct pre as [|b pre]; simpl in E.
    + by inversion E.
    + inversion E as [[E1 E2]]. by destruct pre.
  - inversion_clear Hl as [|?? Ha Hl1].
    destruct pre as [|b pre]; simpl in E; inversion E as [[E1 E2]]; subst.
    + congruence.
    + by apply (IH pre).
Qed.

Lemma uncalm_is_first (l1 : list event) x l2 pre y post :
  Forall (fun e => calm e = true) l1 ->
  (l1 ++ x :: l2 = pre ++ y :: post)%list -> calm y = false ->
  (y = x /\ post = l2) \/ exists mid, l2 = (mid ++ y :: post)%list.
Proof.
  revert pre. induction l1 as [|a l1 IH]; intros pre Hl E Hy.
  - destruct pre as [|b pre]; simpl in E; inversion E as [[E1 E2]]; subst.
    + by left.
    + right. by exists pre.
  - inversion_clear Hl as [|?? Ha Hl1].
    destruct pre as [|b pre]; simpl in E; inversion E as [[E1 E2]]; subst.
    + congruence.
    + by apply (IH pre).
Qed.

(** C1, as the code has it: a progress callback that raises stops the
    pipeline.  Whenever the report of a milestone (any report but the
    one of stage ["error"]) raised in a run of
    [process_documents_enhanced], nothing more of the pipeline was run:
    all that followed was the log record of the failure and one report
    of it through the callback with stage ["error"]; and the run raises
    to its caller the exception of the callback (or the one of that
    last report, when it raised in its turn). *)
Theorem callback_failure_aborts self qa bom wid cb (w : W) pre st p m e post :
  let o := process_documents_enhanced env self qa bom wid cb w in
  events o = (pre ++ ECall (CProgress st p m) (Raise e) :: post)%list ->
  st <> "error" ->
  exists r,
    post = [failure_log wid e; error_report e r] /\
    result o = Raise (match r with Ok _ => e | Raise e' => e' end).
Proof.
  intros o E Hst. subst o.
  pose proof (enhanced_body_spec self qa bom wid cb w) as Hb.
  unfold wp, body_post in Hb.
  destruct (result (enhanced_body env self qa bom wid cb w)) as [v|e0] eqn:Eb.
  - (* the block returned: no report raised *)
    exfalso. destruct Hb as [_ Hfine].
    rewrite (enhanced_ok _ _ _ _ _ _ _ Eb) in E. simpl in E.
    assert (Hall : Forall (fun e => event_fine e = true)
              (start_log wid :: events (enhanced_body env self qa bom wid cb w)))
      by (by constructor).
    rewrite E in Hall. apply Forall_app in Hall as [_ Hall].
    by inversion_clear Hall.
  - pose proof (enhanced_raise _ _ _ _ _ _ _ Eb) as Hr. cbv zeta in Hr.
    destruct cb as [f|].
    + destruct Hr as (r & Hres & Hev).
      rewrite Hev in E.
      destruct Hb as [Hcalm|(_ & st0 & p0 & m0 & prefix & Eprefix & Hcalm)].
      * (* nothing raised in the block: the report that raised would be
           the one of stage "error" *)
        exfalso.
        assert (Hpre : Forall (fun e => calm e = true)
                  (start_log wid ::
                     events (enhanced_body env self qa bom wid (Some f) w)
                     ++ [failure_log wid e0])%list).
        { constructor; [done|]. apply Forall_app_2; [done|by constructor]. }
        assert (Esplit :
          ((start_log wid :: events (enhanced_body env self qa bom wid (Some f) w)
              ++ [failure_log wid e0]) ++ [error_report e0 (enc_res unit_value r)]
           = pre ++ ECall (CProgress st p m) (Raise e) :: post)%list).
        { rewrite <- E. simpl. by rewrite <- app_assoc. }
        destruct (uncalm_is_last _ _ _ _ _ Hpre Esplit eq_refl) as [Ey _].
        unfold error_report in Ey. injection Ey as Est _ _ _. by apply Hst.
      * assert (Hpre : Forall (fun e => calm e = true) (start_log wid :: prefix))
          by (by constructor).
        assert (Esplit :
          ((start_log wid :: prefix) ++ ECall (CProgress st0 p0 m0) (Raise e0)
              :: [failure_log wid e0; error_report e0 (enc_res unit_value r)]
           = pre ++ ECall (CProgress st p m) (Raise e) :: post)%list).
        { rewrite <- E, Eprefix. simpl. by rewrite <- app_assoc. }
        destruct (uncalm_is_first _ _ _ _ _ _ Hpre Esplit eq_refl)
          as [[Ey ->]|[mid Emid]].
        -- injection Ey as -> -> -> ->.
           exists (enc_res unit_value r). split; [done|].
           rewrite Hres. by destruct r.
        -- exfalso. destruct mid as [|a [|b [|c mid]]]; simpl in Emid;
             inversion Emid; subst; done.
    + destruct Hr as [Hres Hev]. exfalso.
      destruct Hb as [Hcalm|([? [=]] & _)].
      rewrite Hev in E.
      assert (Hall : Forall (fun e => calm e = true)
                (start_log wid :: events (enhanced_body env self qa bom wid None w)
                   ++ [failure_log wid e0])%list).
      { constructor; [done|]. apply Forall_app_2; [done|by constructor]. }
      rewrite E in Hall. apply Forall_app in Hall as [_ Hall].
      by inversion_clear Hall.
Qed.

(** C2: in every run in which a stage produced no usable output (the
    result handed to [_save_stage_result] for the translation,
    extraction or supplier-BOM stage lacks the entry the orchestrator
    requires), [process_documents_enhanced] raises to its caller and,
    when a progress callback is supplied, its last act is to report
    through that callback with stage ["error"]; the exception that
    reaches the caller is the one reported, unless that report itself
    raised. *)
Theorem unusable_stage_output_aborts self qa bom wid cb (w : W) wid' stage k r :
  let o := process_documents_enhanced env self qa bom wid cb w in
  In (ESave wid' stage r) (events o) ->
  stage_key stage = Some k ->
  usable k r = false ->
  exists e,
    result o = Raise e /\
    forall f, cb = Some f ->
      exists before e0 r0,
        events o = (before ++ [error_report e0 r0])%list /\
        e = match r0 with Ok _ => e0 | Raise e' => e' end.
Proof.
  intros o Hin Hk Hu. subst o.
  pose proof (enhanced_body_spec self qa bom wid cb w) as Hb.
  unfold wp, body_post in Hb.
  destruct (result (enhanced_body env self qa bom wid cb w)) as [v|e0] eqn:Eb.
  - exfalso. destruct Hb as [_ Hfine].
    rewrite (enhanced_ok _ _ _ _ _ _ _ Eb) in Hin. simpl in Hin.
    destruct Hin as [Hin|Hin]; [done|].
    rewrite List.Forall_forall in Hfine. specialize (Hfine _ Hin).
    unfold event_fine, saved_usable in Hfine. rewrite Hk, Hu in Hfine. done.
  - pose proof (enhanced_raise _ _ _ _ _ _ _ Eb) as Hr. cbv zeta in Hr.
    destruct cb as [f|].
    + destruct Hr as (r0 & Hres & Hev). eexists. split; [exact Hres|].
      intros f' _.
      exists (start_log wid :: events (enhanced_body env self qa bom wid (Some f) w)
                ++ [failure_log wid e0])%list, e0, (enc_res unit_value r0).
      split.
      * rewrite Hev. simpl. by rewrite <- app_assoc.
      * by destruct r0.
    + destruct Hr as [Hres _]. exists e0. split; [done|]. by intros f [=].
Qed.


End PipelineFacts.

(** ** Without the knowledge base *)

Section FallbackFacts.
Context {W : Type} (env : @Collaborators W).

Lemma wpg_bind {A B} (m : M A) (f : A -> M B) (w : W) R :
  wpg m w (fun r w' ev =>
    match r with
    | Ok a => wpg (f a) w' (fun r' w'' ev' => R r' w'' (ev ++ ev')%list)
    | Raise e => R (Raise e) w' ev
    end) ->
  wpg (m ≫= f) w R.
Proof.
  unfold wpg, wp, mbind, M_bind. destruct (result (m w)); simpl; [|done].
  intros H Hgood. rewrite forallb_app in Hgood.
  apply andb_prop in Hgood as [H1 H2]. by apply H.
Qed.

Lemma wpg_log lvl msg (w : W) R :
  R (Ok tt) w [ELog lvl msg] -> wpg (log lvl msg) w R.
Proof. by unfold wpg, wp. Qed.

Lemma wpg_call {A} c (enc : A -> value) (f : ext A) (w : W) R :
  (forall r w', f w = (r, w') -> call_good (ECall c (enc_res enc r)) = true ->
                R r w' [ECall c (enc_res enc r)]) ->
  wpg (call c enc f) w R.
Proof.
  intros H. apply wp_call. intros r w' E Hgood. apply H; [done|].
  simpl in Hgood. by rewrite andb_true_r in Hgood.
Qed.

Lemma wpg_report cb stage p msg (w : W) R :
  match cb with
  | Some f =>
      forall w', f stage (Qc_of_Z p) msg w = (Ok tt, w') ->
        R (Ok tt) w' [ECall (CProgress stage (Qc_of_Z p) msg) (Ok VNone)]
  | None => R (Ok tt) w []
  end ->
  wpg (report cb stage p msg) w R.
Proof.
  destruct cb as [f|]; simpl; intros H; [|by intros _].
  apply wpg_call. intros [[]|e] w' E Hgood; [exact (H w' E) | discriminate Hgood].
Qed.

Lemma wpg_save wid stage r (w : W) R :
  (forall w' evs, Forall (fun ev => is_fs_call ev = true) evs ->
                  R (Ok tt) w' (ESave wid stage r :: evs)) ->
  wpg (_save_stage_result env wid stage r) w R.
Proof. intros H. apply wp_save. intros w' evs Hevs _. by apply H. Qed.

Lemma wpg_require r key msg (w : W) R :
  usable key r = true -> R (Ok tt) w [] ->
  wpg (require_output r key msg) w R.
Proof.
  intros Hu H. apply wp_require; [done|]. intros Hu'. congruence.
Qed.

Lemma wpg_process_document self path src tgt (w : W) R :
  (forall content w', read_text env path w = (Ok content, w') -> content <> "" ->
     R (Ok (translation_record content src tgt)) w'
       [ECall (CReadText path) (Ok (VStr content))]) ->
  wpg (process_document env self path src tgt) w R.
Proof.
  intros H. apply wp_process_document. intros [content|e] w' E Hgood; [|done].
  apply H; [done|]. simpl in Hgood. rewrite andb_true_r in Hgood.
  apply negb_true_iff, bool_decide_eq_false in Hgood. done.
Qed.

Lemma wpg_extract self content (w : W) R :
  R (Ok extraction_record) w [] ->
  wpg (extract_materials_with_qa_classification self content) w R.
Proof. intros H. apply wp_extract. by intros _. Qed.

Lemma wpg_ret {A} (a : A) (w : W) R : R (Ok a) w [] -> wpg (mret a) w R.
Proof. intros H. apply wp_ret. by intros _. Qed.

Lemma wpg_lift {A} (r : res A) (w : W) R : R r w [] -> wpg (lift r) w R.
Proof. intros H. apply wp_lift. by intros _. Qed.

(** *** What good calls give to the pure code that follows *)

Lemma usable_subscript k r :
  usable k r = true -> exists v, py_subscript r k = Ok v /\ truthy v = true.
Proof.
  destruct r as [| | | | | |d]; try done. simpl.
  destruct (d !! KStr k) as [v|]; [eauto|done].
Qed.

Lemma has_items_usable r : has_items r = true -> usable "items" r = true.
Proof.
  destruct r as [| | | | | |d]; try done. simpl.
  destruct (d !! KStr "items") as [v|]; [|done]. by intros [? _]%andb_prop.
Qed.

Lemma has_items_sized r :
  has_items r = true ->
  exists items n, py_subscript r "items" = Ok items /\ py_len items = Ok n.
Proof.
  destruct r as [| | | | | |d]; try done. simpl.
  destruct (d !! KStr "items") as [v|]; [|done].
  intros [_ Hs]%andb_prop. unfold sized in Hs.
  destruct (py_len v) as [n|] eqn:E; [eauto|done].
Qed.

Lemma count_where_total (p : value -> res bool) (l : list value) :
  Forall (fun m => is_ok (p m) = true) l ->
  exists n, count_where p (VList l) = Ok n.
Proof.
  unfold count_where. simpl. generalize O.
  induction l as [|m l IH]; intros n Hall; simpl; [eauto|].
  inversion_clear Hall as [|?? Hm Hl].
  destruct (p m) as [b|] eqn:E; [|done]. simpl. apply IH, Hl.
Qed.

Lemma match_records_counts ms :
  match_records ms = true ->
  exists l n1 n2 qs,
    ms = VList l /\
    count_where is_successful ms = Ok n1 /\
    count_where is_knowledge_base_match ms = Ok n2 /\
    _generate_qa_classification_summary ms = Ok qs.
Proof.
  destruct ms as [| | | | |l|]; try done. simpl. intros Hall.
  rewrite forallb_forall in Hall.
  assert (Hsum : Forall (fun m => summarizable m = true) l).
  { apply List.Forall_forall. intros m Hm.
    by destruct (andb_prop _ _ (Hall m Hm)). }
  assert (Hscore : Forall (fun m => scored m = true) l).
  { apply List.Forall_forall. intros m Hm.
    by destruct (andb_prop _ _ (Hall m Hm)). }
  destruct (count_where_total is_successful l) as [n1 E1].
  { eapply List.Forall_impl; [|exact Hscore]. intros [| | | | | |d]; try done.
    unfold scored, is_successful, py_get. simpl.
    destruct (d !! KStr "confidence_score"); done. }
  destruct (count_where_total is_knowledge_base_match l) as [n2 E2].
  { eapply List.Forall_impl; [|exact Hscore]. by intros [| | | | | |d]. }
  destruct (generate_summarizable l Hsum) as [c E3].
  eauto 10.
Qed.

Lemma translation_usable content src tgt :
  content <> "" ->
  usable "translated_content" (translation_record content src tgt) = true.
Proof.
  intros H. change (negb (bool_decide (content = "")) = true).
  by rewrite bool_decide_eq_false_2.
Qed.

Lemma subscript_translation content src tgt :
  py_subscript (translation_record content src tgt) "translated_content"
  = Ok (VStr content).
Proof. reflexivity. Qed.

Lemma subscript_materials :
  py_subscript extraction_record "materials" = Ok (VList [mock_material]).
Proof. reflexivity. Qed.

Lemma len_materials : py_len (VList [mock_material]) = Ok 1%nat.
Proof. reflexivity. Qed.

Lemma Forall_fs_no_kb evs :
  Forall (fun ev => is_fs_call ev = true) evs ->
  Forall (fun ev => no_kb_call ev = true) evs.
Proof. apply List.Forall_impl. by intros [| [] |]. Qed.

End FallbackFacts.

(** What a good call tells about the value it returned. *)
Ltac use_good_call :=
  try match goal with
      | H : call_good (ECall (CSupplierBOM _) _) = true |- _ =>
          simpl in H; pose proof (has_items_usable _ H);
          destruct (has_items_sized _ H) as (? & ? & ? & ?)
      | H : call_good (ECall (CCompare _ _) _) = true |- _ =>
          simpl in H;
          destruct (match_records_counts _ H) as (? & ? & ? & ? & -> & ? & ? & ?)
      end.

(** The value of a pure expression whose outcome is known. *)
Ltac resolve_pure :=
  lazymatch goal with
  | |- match ?r with Ok _ => _ | Raise _ => _ end =>
      first [ rewrite subscript_translation
            | rewrite subscript_materials
            | rewrite len_materials
            | match goal with H : r = Ok _ |- _ => rewrite H end ]
  end.

(** One step of a run in which every call is good. *)
Ltac wpg_step :=
  lazymatch goal with
  | |- wpg (mbind _ _) _ _ => apply wpg_bind
  | |- wpg (mret _) _ _ => apply wpg_ret
  | |- wpg (lift _) _ _ => apply wpg_lift
  | |- wpg (extract_materials_with_qa_classification _ _) _ _ => apply wpg_extract
  | |- wpg (log _ _) _ _ => apply wpg_log
  | |- wpg (report _ _ _ _) _ _ => apply wpg_report
  | |- wpg (_save_stage_result _ _ _ _) _ _ => apply wpg_save; intros ? ? ?
  | |- wpg (require_output _ _ _) _ _ =>
      apply wpg_require;
      [first [assumption | reflexivity | by apply translation_usable]|]
  | |- wpg (process_document _ _ _ _ _) _ _ =>
      apply wpg_process_document; intros ? ? ? ?
  | |- wpg (call _ _ _) _ _ =>
      apply wpg_call; intros [?|?] ? ? ?; [use_good_call|discriminate]
  | |- forall w', _ = (Ok tt, w') -> _ => intros ? ?
  | |- match _ with Ok _ => _ | Raise _ => _ end => resolve_pure
  end; cbv beta iota zeta.

Ltac solve_no_kb :=
  repeat first
    [ apply Forall_nil_2
    | apply Forall_app_2
    | apply Forall_cons_2
    | apply Forall_fs_no_kb; assumption
    | reflexivity ].

Ltac find_event :=
  repeat first
    [ apply in_or_app; left; apply in_eq
    | apply in_or_app; right ].

Section FallbackRun.
Context {W : Type} (env : @Collaborators W).

Lemma fallback_body_spec self qa bom wid cb (w : W) :
  knowledge_base env self = None ->
  item_matcher env self = None ->
  wpg (enhanced_body env self qa bom wid cb) w (fun r _ ev => fallback_post wid r ev).
Proof.
  intros Hkb Him. unfold enhanced_body. rewrite Hkb, Him. simpl if_truthy.
  cbv beta iota zeta.
  destruct cb as [f|].
  all: repeat wpg_step.
  all: unfold fallback_post; do 3 eexists.
  all: split; [reflexivity|split; [do 2 eexists; find_event|solve_no_kb]].
Qed.

(** [__init__] when the knowledge base does not come up. *)
Lemma init_without_kb client (w : W) e :
  wp (AgentOrchestrator_init env client) w (fun r _ ev =>
    In (ECall (CNew "KnowledgeBase") (Raise e)) ev ->
    exists self,
      r = Ok self /\ knowledge_base env self = None /\ item_matcher env self = None).
Proof.
  unfold AgentOrchestrator_init. cbv zeta.
  repeat wp_step.
  all: intros Hin; simpl in Hin.
  all: try (exfalso; repeat (destruct Hin as [Hin|Hin]; [discriminate Hin|]);
            exact Hin).
  all: eexists; split; [reflexivity|split; reflexivity].
Qed.

(** C4: if the knowledge base fails to initialise when the orchestrator
    is constructed, the constructor returns an orchestrator that holds
    [None] for the knowledge base and for the matcher; and every run of
    [process_documents_enhanced] on it in which the collaborators do
    their part completes: it takes the fallback comparison
    ([compare_materials]) for its matches, makes no call to the
    knowledge base or the matcher, and returns a result whose
    [knowledge_base_stats] is the empty map. *)
Theorem knowledge_base_failure_is_soft client (w0 : W) e :
  let o := AgentOrchestrator_init env client w0 in
  In (ECall (CNew "KnowledgeBase") (Raise e)) (events o) ->
  exists self,
    result o = Ok self /\
    knowledge_base env self = None /\
    item_matcher env self = None /\
    forall qa bom wid cb w,
      let run := process_documents_enhanced env self qa bom wid cb w in
      forallb call_good (events run) = true ->
      fallback_post wid (result run) (events run).
Proof.
  intros o Hin. subst o.
  destruct (init_without_kb client w0 e Hin) as (self & Hself & Hkb & Him).
  exists self. do 3 (split; [done|]).
  intros qa bom wid cb w run Hgood. subst run.
  pose proof (fallback_body_spec self qa bom wid cb w Hkb Him) as Hb.
  unfold wpg, wp in Hb.
  destruct (result (enhanced_body env self qa bom wid cb w)) as [v|e0] eqn:Eb.
  - rewrite (enhanced_ok _ _ _ _ _ _ _ _ Eb) in *. simpl in *.
    destruct (Hb Hgood) as (ms & sm & qs & Hv & (mats & items & Hcmp) & Hno).
    exists ms, sm, qs. split; [done|]. split; [|by constructor].
    exists mats, items. by right.
  - exfalso.
    pose proof (enhanced_raise _ _ _ _ _ _ _ _ Eb) as Hr. cbv zeta in Hr.
    assert (Hev : forallb call_good
              (events (enhanced_body env self qa bom wid cb w)) = true).
    { destruct cb as [f|]; [destruct Hr as (r & _ & Hev)|destruct Hr as [_ Hev]];
        rewrite Hev in Hgood; simpl in Hgood; rewrite forallb_app in Hgood;
        by apply andb_prop in Hgood as [? _]. }
    by destruct (Hb Hev) as (ms & sm & qs & Hv & _).
Qed.

End FallbackRun.

(** ** The stub agents and the stage files *)

Section AgentFacts.
Context {W : Type} (env : @Collaborators W).

(** C3: for every workflow id, stage name and result, whatever the file
    system does, [_save_stage_result] returns normally; when creating
    the directory or writing the file raised, the last thing it did was
    to log that failure as a warning; the only file it writes is the one
    keyed by workflow and stage, with the result it was given; and what
    follows it in the workflow runs as it would have. *)
Theorem save_stage_result_never_raises wid stage r (w : W) :
  let o := _save_stage_result env wid stage r w in
  result o = Ok tt /\
  (forall c e, In (ECall c (Raise e)) (events o) ->
     exists before,
       events o = (before ++
         [ELog WARNING ("Failed to save stage result: " ++ exn_str e)])%list) /\
  (forall path v r', In (ECall (CWriteJson path v) r') (events o) ->
     path = "results/" ++ wid ++ "/" ++ stage ++ "_result.json" /\ v = r) /\
  (forall A (k : M A),
     result ((_save_stage_result env wid stage r ≫= fun _ => k) w)
     = result (k (world_after o))).
Proof.
  unfold _save_stage_result, mbind, M_bind, try_except, emit, call, log.
  cbn [result world_after events].
  destruct (mkdir env ("results/" ++ wid) w) as [[[]|e1] w1];
    cbn [result world_after events enc_res];
    [destruct (write_json env (stage_file wid stage) r w1) as [[[]|e2] w2];
     cbn [result world_after events enc_res]|].
  all: split; [reflexivity|split; [|split; [|reflexivity]]].
  all: try (intros path v r' Hin; simpl in Hin;
            repeat (destruct Hin as [Hin|Hin]; try discriminate Hin);
            [by injection Hin as <- <- _ | done]).
  all: try (intros path v r' Hin; simpl in Hin;
            repeat (destruct Hin as [Hin|Hin]; try discriminate Hin); done).
  all: intros c e Hin; simpl in Hin.
  all: repeat (destruct Hin as [Hin|Hin]; try discriminate Hin).
  all: try done.
  all: injection Hin as _ <-.
  - by exists [ESave wid stage r; ECall (CMkdir ("results/" ++ wid)) (Ok VNone);
               ECall (CWriteJson (stage_file wid stage) r) (Raise e2)].
  - by exists [ESave wid stage r; ECall (CMkdir ("results/" ++ wid)) (Raise e1)].
Qed.

(** C8: for every document whose file can be read, [process_document]
    returns a record whose [translated_content] and [original_content]
    are both the text read, with [translation_confidence] 0.95; reading
    the file is the only call it makes, and the outcome is the same
    whatever Gemini client the agent holds. *)
Theorem translation_is_identity self path src tgt (w : W) content w' :
  read_text env path w = (Ok content, w') ->
  let o := process_document env self path src tgt w in
  exists d,
    result o = Ok (VDict d) /\
    d !! KStr "translated_content" = Some (VStr content) /\
    d !! KStr "original_content" = Some (VStr content) /\
    d !! KStr "translation_confidence" = Some (VFloat (dec 95 100)) /\
    events o = [ECall (CReadText path) (Ok (VStr content))] /\
    forall client,
      process_document env {| translation_gemini_client := client |}
        path src tgt w = o.
Proof.
  intros E. unfold process_document, try_except, mbind, M_bind, call.
  rewrite E. cbn [result world_after events enc_res].
  eexists. split; [reflexivity|]. by repeat split.
Qed.

(** C9: [extract_materials_with_qa_classification] is a constant
    function: any two agents given any two contents, in any world,
    return the same thing, namely a record with the one mock material,
    [extraction_confidence] 0.9 and [total_extracted] 1, without
    touching the world. *)
Theorem extraction_is_constant (self self' : @ExtractionAgent W)
    (content content' : value) (w : W) :
  extract_materials_with_qa_classification self content w
  = extract_materials_with_qa_classification self' content' w /\
  exists d,
    extract_materials_with_qa_classification self content w
    = Out (Ok (VDict d)) w [] /\
    d !! KStr "materials" = Some (VList [mock_material]) /\
    d !! KStr "extraction_confidence" = Some (VFloat (dec 9 10)) /\
    d !! KStr "total_extracted" = Some (VInt 1).
Proof.
  split; [reflexivity|].
  change (extract_materials_with_qa_classification self content w)
    with (Out (Ok extraction_record) w []).
  unfold extraction_record, dict_of.
  eexists. split; [reflexivity|]. by repeat split.
Qed.

(** C7, as the code has it: every material record produced by the
    extraction stage carries the fields [qa_material_name],
    [qa_excerpt], [part_number], [quantity], [unit_of_measure],
    [vendor_name], [qa_classification_label] (an int),
    [qa_confidence_level] (one of high, medium, low),
    [qc_process_step] and [consumable_jigs_tools] (a bool). *)
Theorem extracted_material_shape (self : @ExtractionAgent W) content (w : W) :
  exists r ms,
    result (extract_materials_with_qa_classification self content w) = Ok r /\
    py_subscript r "materials" = Ok (VList ms) /\
    Forall (fun m => source_material m = true) ms.
Proof.
  exists extraction_record, [mock_material].
  split; [reflexivity|]. split; [reflexivity|].
  by repeat constructor.
Qed.

End AgentFacts.

(** ** The properties at work in the small world *)

(** C7 does not hold under the field names of the specification: the
    material record the extraction stage produces has no [material_name],
    no [excerpt] and no [is_consumable]. *)
Lemma extracted_material_shape_counterexample :
  exists r m,
    result (extract_materials_with_qa_classification
              {| extraction_gemini_client := Demo.client |}
              (VStr "Bolt M6, B-100, 4 pcs") Demo.files) = Ok r /\
    py_subscript r "materials" = Ok (VList [m]) /\
    present "material_name" m = false /\
    present "excerpt" m = false /\
    present "is_consumable" m = false /\
    spec_ExtractedMaterial m = false.
Proof.
  exists extraction_record, mock_material.
  split; [reflexivity|]. split; [reflexivity|]. by repeat split.
Qed.

(** C1 does not hold: on an input on which the pipeline completes when no
    callback is given, a callback that raises makes it stop at the first
    milestone, before any stage has run, and raise to its caller. *)
Lemma callback_failure_counterexample :
  is_ok (result (DemoRuns.pipeline "bom.csv" None)) = true /\
  result (DemoRuns.pipeline "bom.csv" (Some Demo.broken_callback))
    = Raise DemoRuns.connection_error /\
  events (DemoRuns.pipeline "bom.csv" (Some Demo.broken_callback))
    = [ start_log "wf-1";
        DemoRuns.first_report;
        failure_log "wf-1" DemoRuns.connection_error;
        error_report DemoRuns.connection_error (Raise DemoRuns.connection_error) ].
Proof. by vm_compute. Qed.

(** C1, as the code has it, at work on the run above. *)
Lemma callback_failure_aborts_witness :
  events (DemoRuns.pipeline "bom.csv" (Some Demo.broken_callback))
    = ([start_log "wf-1"] ++ DemoRuns.first_report ::
       [ failure_log "wf-1" DemoRuns.connection_error;
         error_report DemoRuns.connection_error (Raise DemoRuns.connection_error) ])%list
  /\ "translation" <> "error"
  /\ exists r,
       [ failure_log "wf-1" DemoRuns.connection_error;
         error_report DemoRuns.connection_error (Raise DemoRuns.connection_error) ]
       = [failure_log "wf-1" DemoRuns.connection_error;
          error_report DemoRuns.connection_error r] /\
       result (DemoRuns.pipeline "bom.csv" (Some Demo.broken_callback))
       = Raise (match r with Ok _ => DemoRuns.connection_error | Raise e' => e' end).
Proof.
  assert (E : events (DemoRuns.pipeline "bom.csv" (Some Demo.broken_callback))
    = ([start_log "wf-1"] ++ DemoRuns.first_report ::
       [ failure_log "wf-1" DemoRuns.connection_error;
         error_report DemoRuns.connection_error (Raise DemoRuns.connection_error) ])%list)
    by (vm_compute; reflexivity).
  assert (Hst : "translation" <> "error") by discriminate.
  split; [exact E|]. split; [exact Hst|].
  exact (callback_failure_aborts (Demo.env false) Demo.orchestrator_without_kb
           "qa.txt" "bom.csv" "wf-1" (Some Demo.broken_callback) Demo.files
           _ _ _ _ _ _ E Hst).
Defined.

(** C2 at work: the supplier sheet is missing, the supplier stage yields
    no items, and the run raises after reporting the error. *)
Lemma unusable_stage_output_aborts_witness :
  In (ESave "wf-1" "supplier_bom" DemoRuns.empty_supplier_result)
     (events (DemoRuns.pipeline "missing.csv" (Some Demo.quiet_callback))) /\
  exists e,
    result (DemoRuns.pipeline "missing.csv" (Some Demo.quiet_callback)) = Raise e /\
    forall f, Some Demo.quiet_callback = Some f ->
      exists before e0 r0,
        events (DemoRuns.pipeline "missing.csv" (Some Demo.quiet_callback))
          = (before ++ [error_report e0 r0])%list /\
        e = match r0 with Ok _ => e0 | Raise e' => e' end.
Proof.
  assert (Hin : In (ESave "wf-1" "supplier_bom" DemoRuns.empty_supplier_result)
     (events (DemoRuns.pipeline "missing.csv" (Some Demo.quiet_callback)))).
  { apply (nth_error_In _ 17). vm_compute. reflexivity. }
  split; [exact Hin|].
  apply (unusable_stage_output_aborts (Demo.env false) Demo.orchestrator_without_kb
           "qa.txt" "missing.csv" "wf-1" (Some Demo.quiet_callback) Demo.files
           "wf-1" "supplier_bom" "items" DemoRuns.empty_supplier_result Hin);
    reflexivity.
Defined.

(** C4 at work: the knowledge base is down, the orchestrator is built all
    the same and its run completes on the fallback comparison. *)
Lemma knowledge_base_failure_is_soft_witness :
  exists self,
    result (AgentOrchestrator_init (Demo.env false) Demo.client Demo.files) = Ok self /\
    fallback_post "wf-1"
      (result (process_documents_enhanced (Demo.env false) self
                 "qa.txt" "bom.csv" "wf-1" (Some Demo.quiet_callback) Demo.files))
      (events (process_documents_enhanced (Demo.env false) self
                 "qa.txt" "bom.csv" "wf-1" (Some Demo.quiet_callback) Demo.files)).
Proof.
  destruct (knowledge_base_failure_is_soft (Demo.env false) Demo.client Demo.files
              DemoRuns.database_error)
    as (self & Hself & Hkb & Him & Hrun).
  { apply (nth_error_In _ 2). vm_compute. reflexivity. }
  exists self. split; [exact Hself|].
  apply Hrun.
  assert (Es : self = Demo.orchestrator_without_kb).
  { assert (E : result (AgentOrchestrator_init (Demo.env false) Demo.client Demo.files)
                = Ok Demo.orchestrator_without_kb) by reflexivity.
    rewrite E in Hself. by injection Hself. }
  rewrite Es. vm_compute. reflexivity.
Defined.

(** C8 at work on the document of the small world. *)
Lemma translation_is_identity_witness :
  exists d,
    result (process_document (Demo.env true)
              {| translation_gemini_client := Demo.client |}
              "qa.txt" "ja" "en" Demo.files) = Ok (VDict d) /\
    d !! KStr "translated_content" = Some (VStr "Bolt M6, B-100, 4 pcs") /\
    d !! KStr "original_content" = Some (VStr "Bolt M6, B-100, 4 pcs").
Proof.
  destruct (translation_is_identity (Demo.env true)
              {| translation_gemini_client := Demo.client |}
              "qa.txt" "ja" "en" Demo.files "Bolt M6, B-100, 4 pcs" Demo.files
              eq_refl)
    as (d & Hd & Ht & Ho & _).
  exists d. by repeat split.
Defined.



(* ===================================================================== *)
(** * Further properties *)
(* ===================================================================== *)

(** ** More on the classification summarizer *)

Section SummaryCounts.

Lemma label_count_cons k x ms :
  label_count k (x :: ms) =
    (if bool_decide (label_of x = Some k) then 1 else 0) + label_count k ms.
Proof.
  unfold label_count. rewrite filter_cons.
  destruct (decide (label_of x = Some k)) as [E|E].
  - rewrite (bool_decide_eq_true_2 _ E). simpl. lia.
  - rewrite (bool_decide_eq_false_2 _ E). lia.
Qed.

Lemma label_count_nonneg k ms : 0 <= label_count k ms.
Proof. unfold label_count. lia. Qed.

Lemma summarizable_label x :
  summarizable x = true -> exists k, label_of x = Some k.
Proof.
  destruct x as [| | | | | |d]; try done. simpl. intros [Hl _]%andb_prop.
  destruct (d !! KStr "qa_classification_label") as [v|]; simpl; [|eauto].
  unfold hashable in Hl. destruct (hash_key v); [eauto|done].
Qed.

(** One iteration, with both of its dictionaries. *)
Lemma step_counts c h m l x k0 :
  summarizable x = true -> label_of x = Some k0 ->
  Summary.step (Summary.Acc c (distribution h m l)) x =
    Ok (Summary.Acc (<[k0 := default 0 (c !! k0) + 1]> c)
          (distribution (h + indicator "high" x)
                        (m + indicator "medium" x)
                        (l + indicator "low" x))).
Proof.
  intros Hx Hk. destruct (step_summarizable c h m l x Hx) as [c' E].
  rewrite E. do 2 f_equal.
  destruct x as [| | | | | |d]; try done.
  unfold Summary.step, py_get in E. simpl in E, Hk.
  destruct (hash_key (default (VInt 5) (d !! KStr "qa_classification_label")))
    as [k|]; [|done].
  injection Hk as ->. simpl in E.
  destruct (py_lower (default (VStr "medium") (d !! KStr "qa_confidence_level")));
    simpl in E; [|done].
  by injection E as <- _.
Qed.

Lemma foldl_counts ms : forall c h m l,
  Forall (fun x => summarizable x = true) ms ->
  exists c',
    res_foldl Summary.step (Summary.Acc c (distribution h m l)) ms =
      Ok (Summary.Acc c' (distribution (h + spec_bucket_count "high" ms)
                                       (m + spec_bucket_count "medium" ms)
                                       (l + spec_bucket_count "low" ms))) /\
    forall k, c' !! k = add_count (c !! k) (label_count k ms).
Proof.
  induction ms as [|x ms IH]; intros c h m l Hall.
  - exists c. split.
    + simpl. unfold spec_bucket_count. simpl. by rewrite !Z.add_0_r.
    + intros k. by unfold add_count, label_count.
  - inversion_clear Hall as [|?? Hx Hms].
    destruct (summarizable_label x Hx) as [k0 Hk0].
    pose proof (step_counts c h m l x k0 Hx Hk0) as E1.
    destruct (IH (<[k0 := default 0 (c !! k0) + 1]> c)
                 (h + indicator "high" x) (m + indicator "medium" x)
                 (l + indicator "low" x) Hms) as (c2 & E2 & Hc2).
    exists c2. split.
    + simpl. rewrite E1. simpl. rewrite E2.
      rewrite !spec_bucket_count_cons, !Z.add_assoc. reflexivity.
    + intros k. rewrite Hc2, label_count_cons, Hk0.
      pose proof (label_count_nonneg k ms) as Hn.
      unfold add_count.
      destruct (decide (k0 = k)) as [->|Hne].
      * rewrite lookup_insert_eq, (bool_decide_eq_true_2 (Some k = Some k)) by done.
        rewrite (bool_decide_eq_false_2 (1 + label_count k ms = 0)) by lia.
        case_bool_decide as Hz; simpl; f_equal; lia.
      * rewrite lookup_insert_ne by done.
        rewrite (bool_decide_eq_false_2 (Some k0 = Some k)) by congruence.
        by rewrite Z.add_0_l.
Qed.

(** The summary of a list of well-formed match records, entry by entry. *)
Lemma summary_counts (ms : list value) :
  Forall (fun m => summarizable m = true) ms ->
  exists counts : gmap key Z,
    _generate_qa_classification_summary (VList ms) =
      Ok (dict_of
            [ ("classification_counts", VDict (VInt <$> counts));
              ("confidence_distribution",
                 dict_of [ ("high", VInt (spec_bucket_count "high" ms));
                           ("medium", VInt (spec_bucket_count "medium" ms));
                           ("low", VInt (spec_bucket_count "low" ms)) ]);
              ("total_items", VInt (Z.of_nat (length ms))) ]) /\
    forall k, counts !! k = count_entry (label_count k ms).
Proof.
  intros Hall.
  destruct (foldl_counts ms ∅ 0 0 0 Hall) as (c & E & Hc).
  exists c. split.
  - unfold _generate_qa_classification_summary, Summary.generate. simpl.
    change Summary.init with (Summary.Acc ∅ (distribution 0 0 0)).
    rewrite E. simpl. unfold Summary.to_value.
    cbn [Summary.classification_counts Summary.confidence_distribution].
    by rewrite distribution_value.
  - intros k. rewrite Hc, lookup_empty. unfold add_count, count_entry.
    case_bool_decide; [done|]. simpl. by rewrite Z.add_0_l.
Qed.

End SummaryCounts.

(** X1: for every list of well-formed match records, [classification_counts]
    maps each label to the number of matches that bear it, a match
    without [qa_classification_label] bearing label 5; labels borne by
    no match have no entry. *)
Theorem summary_classification_counts (ms : list value) :
  Forall (fun m => summarizable m = true) ms ->
  exists counts : gmap key Z,
    _generate_qa_classification_summary (VList ms) =
      Ok (dict_of
            [ ("classification_counts", VDict (VInt <$> counts));
              ("confidence_distribution",
                 dict_of [ ("high", VInt (spec_bucket_count "high" ms));
                           ("medium", VInt (spec_bucket_count "medium" ms));
                           ("low", VInt (spec_bucket_count "low" ms)) ]);
              ("total_items", VInt (Z.of_nat (length ms))) ]) /\
    forall k, counts !! k = count_entry (label_count k ms).
Proof. apply summary_counts. Qed.

(** X1 at work: one match with label 2, two that bear label 5 by default. *)
Lemma summary_classification_counts_witness :
  exists counts : gmap key Z,
    _generate_qa_classification_summary (VList DemoRuns.unlabelled_matches) =
      Ok (dict_of
            [ ("classification_counts", VDict (VInt <$> counts));
              ("confidence_distribution",
                 dict_of [ ("high", VInt (spec_bucket_count "high" DemoRuns.unlabelled_matches));
                           ("medium", VInt (spec_bucket_count "medium" DemoRuns.unlabelled_matches));
                           ("low", VInt (spec_bucket_count "low" DemoRuns.unlabelled_matches)) ]);
              ("total_items", VInt (Z.of_nat (length DemoRuns.unlabelled_matches))) ]) /\
    forall k, counts !! k = count_entry (label_count k DemoRuns.unlabelled_matches).
Proof.
  apply (summary_classification_counts DemoRuns.unlabelled_matches).
  repeat constructor.
Defined.


Section SummaryOrder.

Lemma label_count_perm k (ms ms' : list value) :
  ms ≡ₚ ms' -> label_count k ms = label_count k ms'.
Proof. intros H. unfold label_count. by rewrite H. Qed.

Lemma spec_bucket_count_perm b (ms ms' : list value) :
  ms ≡ₚ ms' -> spec_bucket_count b ms = spec_bucket_count b ms'.
Proof. intros H. unfold spec_bucket_count. by rewrite H. Qed.

Lemma res_foldl_app {A B} (f : B -> A -> res B) (l1 l2 : list A) : forall a,
  res_foldl f a (l1 ++ l2) = (a' ← res_foldl f a l1; res_foldl f a' l2).
Proof.
  induction l1 as [|x l1 IH]; intros a; simpl; [done|].
  destruct (f a x) as [a1|e]; simpl; [apply IH|done].
Qed.

Lemma step_level_not_str a (m v : value) :
  level_not_str m v -> Summary.step a m = Raise (AttributeError v "lower").
Proof.
  intros (d & -> & Hlabel & Hlevel & Hstr).
  unfold Summary.step, py_get, mbind, res_bind. rewrite Hlevel.
  unfold hashable in Hlabel.
  destruct (hash_key (default (VInt 5) (d !! KStr "qa_classification_label")))
    as [k|]; [|done].
  by destruct v.
Qed.

End SummaryOrder.

(** X2: the summary does not depend on the order of the matches: two
    lists of well-formed match records that are permutations of each
    other have the same summary. *)
Theorem summary_order_independent (ms ms' : list value) :
  ms ≡ₚ ms' ->
  Forall (fun m => summarizable m = true) ms ->
  _generate_qa_classification_summary (VList ms)
  = _generate_qa_classification_summary (VList ms').
Proof.
  intros Hperm Hall.
  assert (Hall' : Forall (fun m => summarizable m = true) ms')
    by (by rewrite <- Hperm).
  destruct (summary_counts ms Hall) as (c & -> & Hc).
  destruct (summary_counts ms' Hall') as (c' & -> & Hc').
  assert (c = c') as <-.
  { apply map_eq. intros k. by rewrite Hc, Hc', (label_count_perm k _ _ Hperm). }
  rewrite !(spec_bucket_count_perm _ _ _ Hperm).
  by rewrite (Permutation_length Hperm).
Qed.

Lemma summary_order_independent_witness :
  DemoRuns.unlabelled_matches ≡ₚ reverse DemoRuns.unlabelled_matches /\
  _generate_qa_classification_summary (VList DemoRuns.unlabelled_matches)
  = _generate_qa_classification_summary (VList (reverse DemoRuns.unlabelled_matches)).
Proof.
  assert (Hperm : DemoRuns.unlabelled_matches ≡ₚ reverse DemoRuns.unlabelled_matches)
    by (symmetry; apply reverse_Permutation).
  split; [exact Hperm|].
  apply (summary_order_independent _ _ Hperm).
  repeat constructor.
Defined.

(** X3: a match whose [qa_confidence_level] is present but is not a string
    (a null, a number) makes the summarizer raise [AttributeError] for
    the missing [lower], whatever records come after it; nothing is
    defaulted to ["medium"] in that case. *)
Theorem summary_rejects_non_string_level (pre post : list value) (m v : value) :
  Forall (fun x => summarizable x = true) pre ->
  level_not_str m v ->
  _generate_qa_classification_summary (VList (pre ++ m :: post))
  = Raise (AttributeError v "lower").
Proof.
  intros Hpre Hm.
  unfold _generate_qa_classification_summary, Summary.generate. simpl.
  rewrite res_foldl_app.
  change Summary.init with (Summary.Acc ∅ (distribution 0 0 0)).
  destruct (foldl_summarizable pre ∅ 0 0 0 Hpre) as [c ->]. simpl.
  by rewrite (step_level_not_str _ m v Hm).
Qed.

Lemma summary_rejects_non_string_level_witness :
  _generate_qa_classification_summary
    (VList (DemoRuns.unlabelled_matches ++ MoreRuns.null_level_match :: []))
  = Raise (Exn "AttributeError" "'NoneType' object has no attribute 'lower'").
Proof.
  apply (summary_rejects_non_string_level DemoRuns.unlabelled_matches []
           MoreRuns.null_level_match VNone).
  - repeat constructor.
  - eexists. split; [reflexivity|]. by repeat split.
Defined.

(** ** More on the pipeline: how runs fail *)

Section TraceFacts.
Context {W : Type} (env : @Collaborators W).

Lemma wp_require_exact r key msg (w : W) Q :
  (usable key r = true -> Q (Ok tt) w []) ->
  (usable key r = false -> Q (Raise (require_failure r msg)) w []) ->
  wp (require_output r key msg) w Q.
Proof.
  intros Hok Hbad. unfold require_output, usable, require_failure in *.
  destruct (truthy r) eqn:Hr.
  - destruct r as [| | | | | |d]; try (by apply wp_bind, wp_lift, Hbad).
    apply wp_bind, wp_lift. simpl.
    destruct (d !! KStr key) as [v|]; simpl.
    + destruct (truthy v); [by apply wp_ret, Hok | by apply wp_raise, Hbad].
    + by apply wp_raise, Hbad.
  - apply wp_raise. destruct r as [| | | | | |d]; try (by apply Hbad).
    apply Hbad. simpl in Hr. apply negb_false_iff, bool_decide_eq_true in Hr.
    by subst.
Qed.

(** *** Projections of a trace *)

Lemma omap_fs {B} (f : event -> option B) (evs rest : list event) :
  (forall e, is_fs_call e = true -> f e = None) ->
  Forall (fun e => is_fs_call e = true) evs ->
  omap f (evs ++ rest)%list = omap f rest.
Proof.
  intros Hf Hall. induction Hall as [|e evs He _ IH]; simpl; [done|].
  by rewrite (Hf e He).
Qed.

Lemma saved_of_fs evs rest :
  Forall (fun e => is_fs_call e = true) evs ->
  saved_of (evs ++ rest)%list = saved_of rest.
Proof. apply omap_fs. by intros [| [] |]. Qed.

Lemma reports_of_fs evs rest :
  Forall (fun e => is_fs_call e = true) evs ->
  reports_of (evs ++ rest)%list = reports_of rest.
Proof. apply omap_fs. by intros [| [] |]. Qed.

Lemma reads_of_fs evs rest :
  Forall (fun e => is_fs_call e = true) evs ->
  reads_of (evs ++ rest)%list = reads_of rest.
Proof. apply omap_fs. by intros [| [] |]. Qed.

Lemma In_saved wid stage r ev :
  In (ESave wid stage r) ev -> In (stage, r) (saved_of ev).
Proof.
  intros H. apply list_elem_of_In, list_elem_of_omap.
  exists (ESave wid stage r). split; [by apply list_elem_of_In|done].
Qed.

Lemma In_reads p r ev :
  In (ECall (CReadText p) r) ev -> In r (reads_of ev).
Proof.
  intros H. apply list_elem_of_In, list_elem_of_omap.
  exists (ECall (CReadText p) r). split; [by apply list_elem_of_In|done].
Qed.

(** *** Aborted traces *)

Lemma Forall_fs_quiet evs :
  Forall (fun ev => is_fs_call ev = true) evs ->
  Forall (fun ev => quiet ev = true) evs.
Proof. apply List.Forall_impl. by intros [| [] |]. Qed.

Lemma aborted_app l1 l2 x :
  Forall (fun e => quiet e = true) l1 ->
  aborted_by l2 x -> aborted_by (l1 ++ l2)%list x.
Proof.
  intros H1 (pre & logs & -> & H2 & H3). exists (l1 ++ pre)%list, logs.
  split; [by rewrite app_assoc|]. split; [by apply Forall_app_2|done].
Qed.

Lemma aborted_cons a l x :
  quiet a = true -> aborted_by l x -> aborted_by (a :: l) x.
Proof. intros Ha H. apply (aborted_app [a]); [by constructor|done]. Qed.

Lemma aborted_last x logs :
  Forall (fun e => is_log e = true) logs -> aborted_by (x :: logs) x.
Proof. intros H. by exists [], logs. Qed.

End TraceFacts.

Ltac wp_stepx :=
  lazymatch goal with
  | |- wp (require_output _ _ _) _ _ =>
      apply wp_require_exact; intros ?; cbv beta iota zeta
  | _ => wp_step
  end.

Ltac solve_quiet :=
  repeat first
    [ apply Forall_nil_2
    | apply Forall_app_2
    | apply Forall_cons_2
    | apply Forall_fs_quiet; assumption
    | reflexivity ].

Ltac solve_aborted :=
  repeat first
    [ apply aborted_last; solve [repeat constructor]
    | apply aborted_cons; [reflexivity|]
    | apply aborted_app; [apply Forall_fs_quiet; assumption|] ].

(** Bring a trace to a list of events and of chunks of file-system
    events, and compute its projections. *)
Ltac project_trace :=
  cbn [app]; unfold saved_of, reports_of, reads_of;
  repeat (cbn [omap list_omap];
          rewrite omap_fs by first [assumption | by intros [| [] |]]);
  cbn [omap list_omap].

(** A hypothesis of membership in a short explicit list, case by case. *)
Ltac cases_of H :=
  cbn [In] in H;
  repeat lazymatch type of H with
         | _ \/ _ =>
             let H' := fresh in
             destruct H as [H'|H']; rename H' into H
         | False => destruct H
         end.

Ltac find_in_list := cbn [In]; repeat first [left; reflexivity | right].

Section FailureFacts.
Context {W : Type} (env : @Collaborators W).

Lemma enhanced_body_failures self qa bom wid cb (w : W) :
  wp (enhanced_body env self qa bom wid cb) w (fun r _ ev => body_failures r ev).
Proof.
  unfold enhanced_body.
  repeat wp_stepx.
  all: unfold body_failures; project_trace.
  all: split; [|split].
  all: try (first [ solve [solve_quiet]
                  | left; solve [solve_quiet]
                  | right; eexists; split; [|solve_aborted]; reflexivity ]).
  all: try (intros ? ? ? ? Hin_ Hk_ Hu_ Hm_; cases_of Hin_;
            injection Hin_ as <- <-; vm_compute in Hk_; try discriminate Hk_;
            injection Hk_ as <-;
            first [ congruence
                  | vm_compute in Hm_; injection Hm_ as <-; reflexivity ]).
  all: try (intros ? Hin_; cases_of Hin_; try discriminate Hin_;
            injection Hin_ as <-;
            (split; [reflexivity|split; [reflexivity|find_in_list]])).
Qed.

Lemma collaborator_loud c e :
  is_collaborator c = true -> quiet (ECall c (Raise e)) = false.
Proof. by destruct c. Qed.

Lemma stage_key_message stage k :
  stage_key stage = Some k -> exists msg, stage_message stage = Some msg.
Proof.
  unfold stage_key, stage_message. repeat case_bool_decide; eauto.
Qed.

Lemma failure_is_shown self qa bom wid cb (w : W) e :
  result (enhanced_body env self qa bom wid cb w) = Raise e ->
  failure_shown wid cb e (process_documents_enhanced env self qa bom wid cb w).
Proof.
  intros Eb. pose proof (enhanced_raise env _ _ _ _ _ _ _ Eb) as Hr.
  cbv zeta in Hr. unfold failure_shown.
  destruct cb as [f|].
  - destruct Hr as (r & Hres & Hev). rewrite Hev. split.
    + right. apply in_or_app. right. by left.
    + exists (enc_res unit_value r). split.
      * right. apply in_or_app. right. right. by left.
      * rewrite Hres. by destruct r.
  - destruct Hr as [Hres Hev]. rewrite Hev. split; [|done].
    right. apply in_or_app. right. by left.
Qed.

(** An event of a run that is neither a log record nor a progress report
    is an event of the [try] block. *)
Lemma body_event self qa bom wid cb (w : W) x :
  In x (events (process_documents_enhanced env self qa bom wid cb w)) ->
  is_log x = false -> reports_of [x] = [] ->
  In x (events (enhanced_body env self qa bom wid cb w)).
Proof.
  intros Hin Hlog Hrep.
  destruct (result (enhanced_body env self qa bom wid cb w)) as [v|e] eqn:Eb.
  - rewrite (enhanced_ok env _ _ _ _ _ _ _ Eb) in Hin. simpl in Hin.
    destruct Hin as [<-|Hin]; [done|done].
  - pose proof (enhanced_raise env _ _ _ _ _ _ _ Eb) as Hr. cbv zeta in Hr.
    destruct cb as [f|]; [destruct Hr as (r & _ & Hev)|destruct Hr as [_ Hev]];
      rewrite Hev in Hin; simpl in Hin;
      (destruct Hin as [<-|Hin]; [done|]);
      apply in_app_or in Hin as [Hin|Hin]; try done;
      cases_of Hin; subst x; done.
Qed.

End FailureFacts.


Section FailureTheorems.
Context {W : Type} (env : @Collaborators W).

(** X4: an exception raised by any collaborator of the [try] block (the
    read of the document, the supplier-BOM agent, the matcher, the
    fallback comparison, the clock, the knowledge-base statistics) is not
    handled on the spot: the workflow is logged as failed with that
    exception, which is reported through the callback when there is one
    and raised to the caller (unless that report raises in its turn). *)
Theorem collaborator_failure_propagates self qa bom wid cb (w : W) c e :
  let o := process_documents_enhanced env self qa bom wid cb w in
  In (ECall c (Raise e)) (events o) ->
  is_collaborator c = true ->
  failure_shown wid cb e o.
Proof.
  intros o Hin Hc. subst o.
  apply body_event in Hin; [|done|by destruct c].
  pose proof (enhanced_body_failures env self qa bom wid cb w) as Hb.
  unfold wp, body_failures in Hb. destruct Hb as (Hq & _ & _).
  pose proof (collaborator_loud c e Hc) as Hloud.
  destruct (result (enhanced_body env self qa bom wid cb w)) as [v|e0] eqn:Eb.
  - rewrite List.Forall_forall in Hq. specialize (Hq _ Hin). congruence.
  - assert (e = e0) as ->; [|by apply failure_is_shown].
    destruct Hq as [Hq|(c0 & _ & pre & logs & Hev & Hpre & Hlogs)].
    + rewrite List.Forall_forall in Hq. specialize (Hq _ Hin). congruence.
    + rewrite Hev in Hin. apply in_app_or in Hin as [Hin|[Hin|Hin]].
      * rewrite List.Forall_forall in Hpre. specialize (Hpre _ Hin). congruence.
      * by injection Hin.
      * rewrite List.Forall_forall in Hlogs. by specialize (Hlogs _ Hin).
Qed.

(** X5: when a stage produced no usable output, the failure that is
    logged, reported and raised carries that stage's own message
    ("Translation failed - no translated content received", "Material
    extraction failed - no materials extracted", "Supplier BOM
    processing failed - no items extracted"), except when the stage
    result is a truthy object that is no dictionary: then it is the
    [AttributeError] of its missing [get]. *)
Theorem stage_failure_message self qa bom wid cb (w : W) wid' stage k r :
  let o := process_documents_enhanced env self qa bom wid cb w in
  In (ESave wid' stage r) (events o) ->
  stage_key stage = Some k ->
  usable k r = false ->
  exists msg,
    stage_message stage = Some msg /\
    failure_shown wid cb (require_failure r msg) o.
Proof.
  intros o Hin Hk Hu. subst o.
  destruct (stage_key_message stage k Hk) as [msg Hmsg].
  exists msg. split; [done|].
  apply body_event in Hin; [|done|done].
  pose proof (enhanced_body_failures env self qa bom wid cb w) as Hb.
  unfold wp, body_failures in Hb. destruct Hb as (_ & Hs & _).
  apply failure_is_shown.
  exact (Hs stage r k msg (In_saved _ _ _ _ Hin) Hk Hu Hmsg).
Qed.

(** X6: when the QA document cannot be read, the translation agent logs
    "Translation failed" with the exception of the read, and the run
    ends there: no stage result is handed to [_save_stage_result]. *)
Theorem unreadable_document_saves_nothing self qa bom wid cb (w : W) p e :
  let o := process_documents_enhanced env self qa bom wid cb w in
  In (ECall (CReadText p) (Raise e)) (events o) ->
  In (ELog ERROR ("Translation failed: " ++ exn_str e)) (events o) /\
  forall wid' stage r, ~ In (ESave wid' stage r) (events o).
Proof.
  intros o Hin. subst o.
  apply body_event in Hin; [|done|done].
  pose proof (enhanced_body_failures env self qa bom wid cb w) as Hb.
  unfold wp, body_failures in Hb. destruct Hb as (_ & _ & Hr).
  destruct (Hr e (In_reads _ _ _ Hin)) as (Eb & Hsaved & Hlog).
  pose proof (enhanced_raise env _ _ _ _ _ _ _ Eb) as Hev. cbv zeta in Hev.
  split.
  - destruct cb as [f|]; [destruct Hev as (r & _ & ->)|destruct Hev as [_ ->]];
      right; apply in_or_app; by left.
  - intros wid' stage r Hsave.
    apply body_event in Hsave; [|done|done].
    apply In_saved in Hsave. by rewrite Hsaved in Hsave.
Qed.

End FailureTheorems.

(** X4 and X6 at work: the document is missing. *)
Lemma collaborator_failure_propagates_witness :
  In (ECall (CReadText "nope.txt") (Raise (Demo.FileNotFoundError "nope.txt")))
     (events (MoreRuns.run "nope.txt" "bom.csv" None)) /\
  failure_shown "wf-1" None (Demo.FileNotFoundError "nope.txt")
    (MoreRuns.run "nope.txt" "bom.csv" None).
Proof.
  assert (Hin :
    In (ECall (CReadText "nope.txt") (Raise (Demo.FileNotFoundError "nope.txt")))
       (events (MoreRuns.run "nope.txt" "bom.csv" None))).
  { apply (nth_error_In _ 1). vm_compute. reflexivity. }
  split; [exact Hin|].
  exact (collaborator_failure_propagates (Demo.env false)
           Demo.orchestrator_without_kb "nope.txt" "bom.csv" "wf-1" None
           Demo.files _ _ Hin eq_refl).
Defined.

Lemma unreadable_document_saves_nothing_witness :
  In (ELog ERROR ("Translation failed: "
                  ++ exn_str (Demo.FileNotFoundError "nope.txt")))
     (events (MoreRuns.run "nope.txt" "bom.csv" None)) /\
  forall wid' stage r,
    ~ In (ESave wid' stage r) (events (MoreRuns.run "nope.txt" "bom.csv" None)).
Proof.
  apply (unreadable_document_saves_nothing (Demo.env false)
           Demo.orchestrator_without_kb "nope.txt" "bom.csv" "wf-1" None
           Demo.files "nope.txt" (Demo.FileNotFoundError "nope.txt")).
  apply (nth_error_In _ 1). vm_compute. reflexivity.
Defined.

(** X5 at work: the supplier sheet is missing and the stage yields no
    items. *)
Lemma stage_failure_message_witness :
  In (ESave "wf-1" "supplier_bom" DemoRuns.empty_supplier_result)
     (events (MoreRuns.run "qa.txt" "missing.csv" None)) /\
  exists msg,
    stage_message "supplier_bom" = Some msg /\
    failure_shown "wf-1" None
      (require_failure DemoRuns.empty_supplier_result msg)
      (MoreRuns.run "qa.txt" "missing.csv" None).
Proof.
  assert (Hin :
    In (ESave "wf-1" "supplier_bom" DemoRuns.empty_supplier_result)
       (events (MoreRuns.run "qa.txt" "missing.csv" None))).
  { apply (nth_error_In _ 12). vm_compute. reflexivity. }
  split; [exact Hin|].
  exact (stage_failure_message (Demo.env false) Demo.orchestrator_without_kb
           "qa.txt" "missing.csv" "wf-1" None Demo.files
           "wf-1" "supplier_bom" "items" DemoRuns.empty_supplier_result
           Hin eq_refl eq_refl).
Defined.

(** ** More on the pipeline: what a run touches *)

Section ReachFacts.
Context {W : Type} (env : @Collaborators W).

Lemma wp_save_paths wid stage r (w : W) Q :
  (forall w' evs, Forall (save_event wid stage r) evs ->
                  Q (Ok tt) w' (ESave wid stage r :: evs)) ->
  wp (_save_stage_result env wid stage r) w Q.
Proof.
  intros H. unfold _save_stage_result.
  apply wp_bind, wp_emit, wp_try, wp_bind, wp_call.
  intros [[]|e] w1 _.
  - apply wp_bind, wp_call. intros [[]|e] w2 _;
      apply wp_log, H; by repeat constructor.
  - apply wp_log, H. by repeat constructor.
Qed.

Lemma save_event_run self qa bom wid cb stage r evs :
  In stage stages ->
  Forall (save_event wid stage r) evs ->
  Forall (run_event env self qa bom wid cb) evs.
Proof.
  intros Hs. apply List.Forall_impl. intros [| [] |]; simpl; try done.
  intros [-> _]. exists stage. by split.
Qed.

End ReachFacts.

Ltac wp_stepy :=
  lazymatch goal with
  | |- wp (_save_stage_result _ _ _ _) _ _ =>
      apply wp_save_paths; intros ? ? ?; cbv beta iota zeta
  | |- match py_subscript extraction_record "materials" with
       | Ok _ => _ | Raise _ => _ end =>
      rewrite subscript_materials; cbv beta iota zeta
  | _ => wp_step
  end.

Ltac known_some :=
  lazymatch goal with
  | |- is_Some (Some _) => by eexists
  | |- is_Some ?x =>
      match goal with H : x = Some _ |- _ => rewrite H; by eexists end
  end.

Ltac solve_run_event :=
  unfold run_event; cbv beta iota;
  lazymatch goal with
  | |- True => exact I
  | |- _ = _ => reflexivity
  | |- is_Some _ => known_some
  | |- _ /\ In _ stages => split; [reflexivity | unfold stages; find_in_list]
  | |- _ /\ _ /\ is_Some _ => split; [reflexivity|split; [reflexivity|known_some]]
  | |- _ /\ _ = None => split; [reflexivity|assumption]
  end.

Ltac solve_run_events :=
  repeat first
    [ apply Forall_nil_2
    | apply Forall_app_2
    | apply Forall_cons_2
    | eapply save_event_run; [|eassumption]; unfold stages; find_in_list
    | solve_run_event ].

Section ReachRun.
Context {W : Type} (env : @Collaborators W).

Lemma enhanced_body_reach self qa bom wid cb (w : W) :
  wp (enhanced_body env self qa bom wid cb) w
     (fun _ _ ev => Forall (run_event env self qa bom wid cb) ev).
Proof.
  unfold enhanced_body.
  repeat wp_stepy.
  all: solve_run_events.
Qed.

Lemma run_reach self qa bom wid cb (w : W) x :
  In x (events (process_documents_enhanced env self qa bom wid cb w)) ->
  run_event env self qa bom wid cb x.
Proof.
  pose proof (enhanced_body_reach self qa bom wid cb w) as Hb.
  unfold wp in Hb. rewrite List.Forall_forall in Hb.
  intros Hin.
  destruct (result (enhanced_body env self qa bom wid cb w)) as [v|e] eqn:Eb.
  - rewrite (enhanced_ok env _ _ _ _ _ _ _ Eb) in Hin. simpl in Hin.
    destruct Hin as [<-|Hin]; [done|by apply Hb].
  - pose proof (enhanced_raise env _ _ _ _ _ _ _ Eb) as Hr. cbv zeta in Hr.
    destruct cb as [f|]; [destruct Hr as (r & _ & Hev)|destruct Hr as [_ Hev]];
      rewrite Hev in Hin; simpl in Hin;
      (destruct Hin as [<-|Hin]; [done|]);
      (apply in_app_or in Hin as [Hin|Hin]; [by apply Hb|]);
      cases_of Hin; subst x; by simpl.
Qed.

(** X7: whatever a run of [process_documents_enhanced] does and however
    it ends, the files and directories it names are its own: the QA
    document it reads, the supplier BOM it hands to the supplier agent,
    the directory [results/<workflow_id>] it creates and the files
    [results/<workflow_id>/<stage>_result.json] of the four stages it
    writes. *)
Theorem run_stays_in_its_files self qa bom wid cb (w : W) c r p :
  In (ECall c r) (events (process_documents_enhanced env self qa bom wid cb w)) ->
  path_of c = Some p ->
  In p (run_paths qa bom wid).
Proof.
  intros Hin Hp. apply run_reach in Hin. unfold run_paths.
  destruct c; simpl in Hin, Hp; try discriminate Hp; injection Hp as <-.
  - left. by symmetry.
  - right. right. left. by symmetry.
  - destruct Hin as (stage & Hs & ->).
    right. right. right. by apply in_map.
  - right. left. by symmetry.
Qed.

(** X8: the materials a run hands to the matcher or to the fallback
    comparison are always the one sample material of the extraction
    agent, whatever the QA document holds. *)
Theorem matching_gets_the_sample_material self qa bom wid cb (w : W) c r m :
  In (ECall c r) (events (process_documents_enhanced env self qa bom wid cb w)) ->
  materials_of c = Some m ->
  m = VList [mock_material].
Proof.
  intros Hin Hm. apply run_reach in Hin.
  destruct c; simpl in Hin, Hm; try discriminate Hm; injection Hm as <-;
    by destruct Hin as [-> _].
Qed.

(** X9: a run calls the matcher of the knowledge base only when the
    orchestrator holds a truthy one, passes it the workflow id of the
    run, and then never calls the fallback comparison. *)
Theorem matcher_excludes_fallback self qa bom wid cb (w : W) m items wid' r :
  let o := process_documents_enhanced env self qa bom wid cb w in
  In (ECall (CMatchKB m items wid') r) (events o) ->
  is_Some (if_truthy (ItemMatcher_bool env) (item_matcher env self)) /\
  wid' = wid /\
  forall m' items' r', ~ In (ECall (CCompare m' items') r') (events o).
Proof.
  intros o Hin. subst o. apply run_reach in Hin. simpl in Hin.
  destruct Hin as (_ & -> & Hsome). do 2 (split; [done|]).
  intros m' items' r' Hin'. apply run_reach in Hin'. simpl in Hin'.
  destruct Hin' as [_ Hnone]. rewrite Hnone in Hsome. by destruct Hsome.
Qed.

(** X10: a run asks the knowledge base for its statistics only when the
    orchestrator holds a truthy knowledge base; and no run constructs an
    agent, a matcher or a knowledge base of its own. *)
Theorem statistics_need_a_knowledge_base self qa bom wid cb (w : W) :
  let o := process_documents_enhanced env self qa bom wid cb w in
  (forall r, In (ECall CStats r) (events o) ->
     is_Some (if_truthy (KnowledgeBase_bool env) (knowledge_base env self))) /\
  (forall class r, ~ In (ECall (CNew class) r) (events o)).
Proof.
  cbv zeta. split.
  - intros r Hin. by apply run_reach in Hin.
  - intros class r Hin. by apply run_reach in Hin.
Qed.

End ReachRun.

(** X7 at work: the document read is the QA document of the run. *)
Lemma run_stays_in_its_files_witness :
  In "qa.txt" (run_paths "qa.txt" "bom.csv" "wf-1").
Proof.
  apply (run_stays_in_its_files (Demo.env false) Demo.orchestrator_without_kb
           "qa.txt" "bom.csv" "wf-1" None Demo.files
           (CReadText "qa.txt") (Ok (VStr "Bolt M6, B-100, 4 pcs")) "qa.txt").
  - apply (nth_error_In _ 1). vm_compute. reflexivity.
  - reflexivity.
Defined.

(** X8 at work: the fallback comparison of the small world. *)
Lemma matching_gets_the_sample_material_witness :
  In (ECall (CCompare (VList [mock_material]) (VList [Demo.supplier_item]))
            (Ok (VList [Demo.a_match])))
     (events (MoreRuns.run "qa.txt" "bom.csv" None)) /\
  VList [mock_material] = VList [mock_material].
Proof.
  assert (Hin :
    In (ECall (CCompare (VList [mock_material]) (VList [Demo.supplier_item]))
              (Ok (VList [Demo.a_match])))
       (events (MoreRuns.run "qa.txt" "bom.csv" None))).
  { apply (nth_error_In _ 17). vm_compute. reflexivity. }
  split; [exact Hin|].
  exact (matching_gets_the_sample_material (Demo.env false)
           Demo.orchestrator_without_kb "qa.txt" "bom.csv" "wf-1" None Demo.files
           _ _ _ Hin eq_refl).
Defined.

(** X9 and X10 at work: a run with the knowledge base up. *)
Lemma matcher_excludes_fallback_witness :
  is_Some (if_truthy (ItemMatcher_bool (Demo.env true))
             (item_matcher (Demo.env true) MoreRuns.orchestrator_with_kb)) /\
  "wf-1" = "wf-1" /\
  forall m' items' r',
    ~ In (ECall (CCompare m' items') r')
         (events (MoreRuns.run_kb (Some Demo.quiet_callback))).
Proof.
  apply (matcher_excludes_fallback (Demo.env true) MoreRuns.orchestrator_with_kb
           "qa.txt" "bom.csv" "wf-1" (Some Demo.quiet_callback) Demo.files
           (VList [mock_material]) (VList [Demo.supplier_item]) "wf-1"
           (Ok (VList [Demo.a_match]))).
  apply (nth_error_In _ 24). vm_compute. reflexivity.
Defined.

Lemma statistics_need_a_knowledge_base_witness :
  is_Some (if_truthy (KnowledgeBase_bool (Demo.env true))
             (knowledge_base (Demo.env true) MoreRuns.orchestrator_with_kb)) /\
  forall class r,
    ~ In (ECall (CNew class) r)
         (events (MoreRuns.run_kb (Some Demo.quiet_callback))).
Proof.
  destruct (statistics_need_a_knowledge_base (Demo.env true)
              MoreRuns.orchestrator_with_kb
              "qa.txt" "bom.csv" "wf-1" (Some Demo.quiet_callback) Demo.files)
    as [Hstats Hnew].
  split; [|exact Hnew].
  apply (Hstats (Ok (dict_of [("total_entries", VInt 0)]))).
  apply (nth_error_In _ 27). vm_compute. reflexivity.
Defined.

(** ** More on the pipeline: the order of a run *)

Section OrderFacts.
Context {W : Type} (env : @Collaborators W).

Lemma report_eq (s s' : string) (p p' : Z) :
  (s, Qc_of_Z p) = (s', Qc_of_Z p') -> s = s' /\ p = p'.
Proof.
  intros H. injection H as Hs Hp. split; [done|].
  apply Qred_eq_iff in Hp. by apply inject_Z_injective.
Qed.

Lemma saved_event stage r ev :
  In (stage, r) (saved_of ev) -> exists wid, In (ESave wid stage r) ev.
Proof.
  intros H. apply list_elem_of_In, list_elem_of_omap in H.
  destruct H as (e & He & Hf). destruct e as [| |wid s r0]; try done.
  injection Hf as -> ->. exists wid. by apply list_elem_of_In.
Qed.

Lemma In_reports stage p msg r ev :
  In (ECall (CProgress stage p msg) r) ev -> In (stage, p) (reports_of ev).
Proof.
  intros H. apply list_elem_of_In, list_elem_of_omap.
  exists (ECall (CProgress stage p msg) r). split; [by apply list_elem_of_In|done].
Qed.

Lemma reports_of_app l1 l2 :
  reports_of (l1 ++ l2)%list = (reports_of l1 ++ reports_of l2)%list.
Proof. apply omap_app. Qed.

Lemma saved_of_app l1 l2 :
  saved_of (l1 ++ l2)%list = (saved_of l1 ++ saved_of l2)%list.
Proof. apply omap_app. Qed.

End OrderFacts.

Ltac solve_prefix :=
  lazymatch goal with
  | |- _ `prefix_of` _ =>
      unfold stages, milestones; eexists; cbn [app]; reflexivity
  end.

Ltac solve_completion :=
  let Hc := fresh "Hc_" in
  let Hin := fresh "Hin_" in
  intros ? ? Hc Hin; unfold completions in Hc; cases_of Hc;
  injection Hc as <- <-; cases_of Hin;
  first
    [ apply report_eq in Hin as [? ?]; discriminate
    | do 2 eexists; split; [find_in_list|split; [reflexivity|assumption]] ].

Section OrderRun.
Context {W : Type} (env : @Collaborators W).

Lemma enhanced_body_order self qa bom wid cb (w : W) :
  wp (enhanced_body env self qa bom wid cb) w (fun r _ ev => body_order cb r ev).
Proof.
  unfold enhanced_body.
  repeat wp_stepx.
  all: unfold body_order; project_trace; cbn [fmap list_fmap fst].
  all: (split; [|solve_completion]).
  all: try (split; reflexivity).
  all: (split; [solve_prefix|split; [solve_prefix|]]).
  all: try (by intros _).
  all: by intros [].
Qed.

(** The projections of a run in terms of those of its [try] block. *)
Lemma run_projections self qa bom wid cb (w : W) :
  let b := enhanced_body env self qa bom wid cb w in
  let o := process_documents_enhanced env self qa bom wid cb w in
  saved_of (events o) = saved_of (events b) /\
  match result b with
  | Ok v => result o = Ok v /\ reports_of (events o) = reports_of (events b)
  | Raise _ =>
      (exists e, result o = Raise e) /\
      reports_of (events o) =
        (reports_of (events b) ++
         match cb with Some _ => [("error", Qc_of_Z 0)] | None => [] end)%list
  end.
Proof.
  cbv zeta.
  destruct (result (enhanced_body env self qa bom wid cb w)) as [v|e] eqn:Eb.
  - by rewrite (enhanced_ok env _ _ _ _ _ _ _ Eb).
  - pose proof (enhanced_raise env _ _ _ _ _ _ _ Eb) as Hr. cbv zeta in Hr.
    destruct cb as [f|]; [destruct Hr as (r & Hres & ->)|destruct Hr as [Hres ->]];
      rewrite Hres; (split; [|split; [by eexists|]]);
      change (start_log wid :: ?l) with ([start_log wid] ++ l)%list;
      by rewrite ?saved_of_app, ?reports_of_app, ?app_nil_r.
Qed.

(** X11: the progress reports of a run follow the milestones of the
    pipeline in order (translation 5 and 30, extraction 35 and 60,
    supplier_bom 65 and 80, comparison 85 and 95, completed 100): a run
    that returns has made all nine, a run that raises has made the first
    few of them (at least one) followed by one report of stage "error"
    with progress 0; without a callback nothing is reported. *)
Theorem progress_follows_milestones self qa bom wid cb (w : W) :
  let o := process_documents_enhanced env self qa bom wid cb w in
  match cb, result o with
  | None, _ => reports_of (events o) = []
  | Some _, Ok _ => reports_of (events o) = milestones
  | Some _, Raise _ =>
      exists made,
        made `prefix_of` milestones /\ made <> [] /\
        reports_of (events o) = (made ++ [("error", Qc_of_Z 0)])%list
  end.
Proof.
  cbv zeta.
  pose proof (run_projections self qa bom wid cb w) as [_ Hp]. cbv zeta in Hp.
  pose proof (enhanced_body_order self qa bom wid cb w) as [Ho _].
  unfold wp in Ho.
  destruct (result (enhanced_body env self qa bom wid cb w)) as [v|e].
  - destruct Hp as [-> ->]. destruct Ho as [_ ->]. by destruct cb.
  - destruct Hp as [[e' ->] ->]. destruct Ho as (_ & Hpre & Hne).
    destruct cb as [f|].
    + eexists. split; [exact Hpre|]. split; [by apply Hne|done].
    + destruct Hpre as [k Hk].
      destruct (reports_of (events (enhanced_body env self qa bom wid None w)))
        as [|x l] eqn:E; [done|].
      pose proof (enhanced_body_reach env self qa bom wid None w) as Hr.
      unfold wp in Hr. rewrite List.Forall_forall in Hr.
      assert (In x (reports_of (events (enhanced_body env self qa bom wid None w))))
        as Hin by (rewrite E; by left).
      apply list_elem_of_In, list_elem_of_omap in Hin.
      destruct Hin as (ev & Hev & Hf). apply list_elem_of_In, Hr in Hev.
      destruct ev as [|[]|]; try done. simpl in Hev. by destruct Hev.
Qed.

(** X12: whatever happens, the stage results a run hands to
    [_save_stage_result] are those of translation, extraction,
    supplier_bom and final, in this order and each at most once; a run
    that returns has saved all four. *)
Theorem stages_saved_in_order self qa bom wid cb (w : W) :
  let o := process_documents_enhanced env self qa bom wid cb w in
  match result o with
  | Ok _ => (saved_of (events o)).*1 = stages
  | Raise _ => (saved_of (events o)).*1 `prefix_of` stages
  end.
Proof.
  cbv zeta.
  pose proof (run_projections self qa bom wid cb w) as [-> Hp]. cbv zeta in Hp.
  pose proof (enhanced_body_order self qa bom wid cb w) as [Ho _].
  unfold wp in Ho.
  destruct (result (enhanced_body env self qa bom wid cb w)) as [v|e].
  - destruct Hp as [-> _]. by destruct Ho.
  - destruct Hp as [[e' ->] _]. by destruct Ho.
Qed.

(** X13: a stage is reported as completed (translation at 30,
    extraction at 60, supplier_bom at 80) only after its result was
    handed to [_save_stage_result] under the workflow id of the run and
    was found usable: a dictionary with a truthy entry under the key the
    stage is required to deliver. *)
Theorem completion_means_usable_output self qa bom wid cb (w : W) stage p msg r :
  let o := process_documents_enhanced env self qa bom wid cb w in
  In (ECall (CProgress stage p msg) r) (events o) ->
  In (stage, p) completions ->
  exists res k,
    In (ESave wid stage res) (events o) /\
    stage_key stage = Some k /\ usable k res = true.
Proof.
  intros o Hin Hc. subst o.
  pose proof (run_projections self qa bom wid cb w) as [Hs Hp]. cbv zeta in Hp.
  pose proof (enhanced_body_order self qa bom wid cb w) as [_ Ho].
  unfold wp in Ho.
  apply In_reports in Hin.
  assert (In (stage, p) (reports_of (events (enhanced_body env self qa bom wid cb w))))
    as Hb.
  { destruct (result (enhanced_body env self qa bom wid cb w)) as [v|e].
    - destruct Hp as [_ Hp]. by rewrite Hp in Hin.
    - destruct Hp as [_ Hp]. rewrite Hp in Hin.
      apply in_app_or in Hin as [Hin|Hin]; [done|].
      destruct cb; [|done]. destruct Hin as [Hin|[]].
      injection Hin as <- <-. unfold completions in Hc. cases_of Hc;
        by apply (f_equal fst) in Hc. }
  destruct (Ho stage p Hc Hb) as (res & k & Hsaved & Hk & Hu).
  rewrite <- Hs in Hsaved. apply saved_event in Hsaved as [wid' Hsaved].
  exists res, k. split; [|done].
  pose proof (run_reach env self qa bom wid cb w _ Hsaved) as Hrun.
  simpl in Hrun. by destruct Hrun as [-> _].
Qed.

End OrderRun.

(** X13 at work: the translation of the small world is reported as
    completed. *)
Lemma completion_means_usable_output_witness :
  exists res k,
    In (ESave "wf-1" "translation" res)
       (events (MoreRuns.run_kb (Some Demo.quiet_callback))) /\
    stage_key "translation" = Some k /\ usable k res = true.
Proof.
  apply (completion_means_usable_output (Demo.env true)
           MoreRuns.orchestrator_with_kb
           "qa.txt" "bom.csv" "wf-1" (Some Demo.quiet_callback) Demo.files
           "translation" (Qc_of_Z 30) "Translation completed successfully"
           (Ok VNone)).
  - apply (nth_error_In _ 7). vm_compute. reflexivity.
  - left. reflexivity.
Defined.

(** ** More on the pipeline: what the result is made of *)

Ltac wp_stepz :=
  lazymatch goal with
  | |- match py_subscript extraction_record "materials" with
       | Ok _ => _ | Raise _ => _ end =>
      rewrite subscript_materials; cbv beta iota zeta
  | |- match py_len (VList [mock_material]) with
       | Ok _ => _ | Raise _ => _ end =>
      rewrite len_materials; cbv beta iota zeta
  | _ => wp_step
  end.

Ltac find_in_trace :=
  cbn [app];
  repeat first
    [ apply in_eq
    | apply in_or_app; left; apply in_eq
    | apply in_cons
    | apply in_or_app; right ].

Section ResultRun.
Context {W : Type} (env : @Collaborators W).

Lemma enhanced_body_result self qa bom wid cb (w : W) :
  wp (enhanced_body env self qa bom wid cb) w
     (fun r _ ev => body_result env self wid r ev).
Proof.
  unfold enhanced_body.
  repeat wp_stepz.
  all: unfold body_result.
  all: try lazymatch goal with |- True => exact I end.
  all: unfold result_made_of; do 11 eexists.
  all: split; [reflexivity|].
  all: split; [find_in_trace|].
  all: split; [eassumption|].
  all: split; [eassumption|].
  all: split; [find_in_trace|].
  all: split; [reflexivity|].
  all: split; [eassumption|].
  all: split; [eassumption|].
  all: split; [find_in_trace|].
  all: split; [|split; [eassumption|find_in_trace]].
  all: match goal with H : if_truthy (KnowledgeBase_bool _) _ = _ |- _ => rewrite H end.
  all: first [reflexivity | find_in_trace].
Qed.

End ResultRun.

Section ResultFacts.
Context {W : Type} (env : @Collaborators W).

Lemma count_fold_le (p : value -> res bool) ms : forall n0 n,
  res_foldl (fun n m => b ← p m; Ok (if b : bool then S n else n)) n0 ms = Ok n ->
  (n <= n0 + length ms)%nat.
Proof.
  induction ms as [|m ms IH]; intros n0 n E; simpl in E.
  - injection E as <-. simpl. lia.
  - destruct (p m) as [b|]; [|done]. simpl in E.
    apply IH in E. simpl. destruct b; lia.
Qed.

Lemma length_chars s : length (list_ascii_of_string s) = String.length s.
Proof. induction s as [|a s IH]; simpl; [done|by rewrite IH]. Qed.

Lemma py_iter_len v l : py_iter v = Ok l -> py_len v = Ok (length l).
Proof.
  destruct v as [| | | |s|l0|d]; try done; simpl; intros [= <-].
  - by rewrite length_fmap, length_chars.
  - done.
  - by rewrite !length_fmap, length_map_to_list.
Qed.

Lemma count_where_le p v n :
  count_where p v = Ok n -> exists k, py_len v = Ok k /\ (n <= k)%nat.
Proof.
  unfold count_where. destruct (py_iter v) as [l|] eqn:E; [|done]. simpl.
  intros H. exists (length l). split; [by apply py_iter_len|].
  by apply count_fold_le in H.
Qed.

Lemma generate_total v qs :
  _generate_qa_classification_summary v = Ok qs ->
  exists n, py_len v = Ok n /\
            py_subscript qs "total_items" = Ok (VInt (Z.of_nat n)).
Proof.
  unfold _generate_qa_classification_summary, Summary.generate.
  destruct (py_iter v) as [l|]; [|done]. simpl.
  destruct (res_foldl Summary.step Summary.init l) as [a|]; [|done]. simpl.
  destruct (py_len v) as [n|]; [|done]. simpl. intros [= <-].
  by exists n.
Qed.

Lemma run_result self qa bom wid cb (w : W) v :
  let o := process_documents_enhanced env self qa bom wid cb w in
  result o = Ok v -> result_made_of env self wid v (events o).
Proof.
  intros o E. subst o. apply enhanced_result_shape in E.
  pose proof (enhanced_body_result env self qa bom wid cb w) as Hb.
  unfold wp, body_result in Hb. rewrite E in Hb.
  rewrite (enhanced_ok env _ _ _ _ _ _ _ E). cbn [events].
  destruct Hb as (path & supplied & items & n_items & c & ms & successful
                  & kb_matches & date & st & qs & Hv & H1 & H2 & H3 & H4 & H5
                  & H6 & H7 & H8 & H9 & H10 & H11).
  exists path, supplied, items, n_items, c, ms, successful, kb_matches, date, st, qs.
  repeat (split; [first [assumption | by apply in_cons]|]).
  split; [|split; [assumption|by apply in_cons]].
  destruct (if_truthy (KnowledgeBase_bool env) (knowledge_base env self));
    [by apply in_cons|assumption].
Qed.

(** X14: the result of a run that returns is made of what its
    collaborators answered, and of nothing else: [matches] is what the
    matcher (or the fallback comparison) returned for the [items] of the
    supplier agent's result, [summary] holds [total_materials] 1 (the one
    sample material, whatever the document), the length of those items,
    the two counts taken over the matches, the clock's date and
    [enhanced_matching] true; [knowledge_base_stats] is what the
    knowledge base answered, or the empty dictionary when none is held;
    [qa_classification_summary] is the summary of the matches; and this
    result is the one handed to [_save_stage_result] as stage "final". *)
Theorem result_is_made_of_the_answers self qa bom wid cb (w : W) v :
  let o := process_documents_enhanced env self qa bom wid cb w in
  result o = Ok v -> result_made_of env self wid v (events o).
Proof. apply run_result. Qed.

(** X15: in the result of a run that returns, the number of successful
    matches and the number of knowledge-base matches of [summary] are at
    most the number of [matches], and [total_items] of
    [qa_classification_summary] is that number. *)
Theorem match_counts_are_bounded self qa bom wid cb (w : W) v :
  result (process_documents_enhanced env self qa bom wid cb w) = Ok v ->
  exists ms sm qs n s k,
    py_subscript v "matches" = Ok ms /\ py_len ms = Ok n /\
    py_subscript v "summary" = Ok sm /\
    py_subscript sm "successful_matches" = Ok (VInt (Z.of_nat s)) /\
    py_subscript sm "knowledge_base_matches" = Ok (VInt (Z.of_nat k)) /\
    py_subscript v "qa_classification_summary" = Ok qs /\
    py_subscript qs "total_items" = Ok (VInt (Z.of_nat n)) /\
    (s <= n)%nat /\ (k <= n)%nat.
Proof.
  intros E. apply run_result in E.
  destruct E as (path & supplied & items & n_items & c & ms & successful
                 & kb_matches & date & st & qs & -> & _ & _ & _ & _ & _
                 & H6 & H7 & _ & _ & H10 & _).
  destruct (generate_total _ _ H10) as (n & Hn & Ht).
  destruct (count_where_le _ _ _ H6) as (n1 & Hn1 & Hle1).
  destruct (count_where_le _ _ _ H7) as (n2 & Hn2 & Hle2).
  rewrite Hn in Hn1, Hn2. injection Hn1 as <-. injection Hn2 as <-.
  exists ms, (run_summary n_items successful kb_matches date), qs, n,
    successful, kb_matches.
  by repeat split.
Qed.

End ResultFacts.

(** X14 and X15 at work: the run of the small world. *)
Lemma result_is_made_of_the_answers_witness :
  result (DemoRuns.pipeline "bom.csv" None) = Ok DemoRuns.final_result /\
  result_made_of (Demo.env false) Demo.orchestrator_without_kb "wf-1"
    DemoRuns.final_result (events (DemoRuns.pipeline "bom.csv" None)).
Proof.
  assert (E : result (DemoRuns.pipeline "bom.csv" None) = Ok DemoRuns.final_result)
    by (vm_compute; reflexivity).
  split; [exact E|].
  exact (result_is_made_of_the_answers (Demo.env false)
           Demo.orchestrator_without_kb "qa.txt" "bom.csv" "wf-1" None Demo.files
           DemoRuns.final_result E).
Defined.

Lemma match_counts_are_bounded_witness :
  exists ms sm qs n s k,
    py_subscript DemoRuns.final_result "matches" = Ok ms /\ py_len ms = Ok n /\
    py_subscript DemoRuns.final_result "summary" = Ok sm /\
    py_subscript sm "successful_matches" = Ok (VInt (Z.of_nat s)) /\
    py_subscript sm "knowledge_base_matches" = Ok (VInt (Z.of_nat k)) /\
    py_subscript DemoRuns.final_result "qa_classification_summary" = Ok qs /\
    py_subscript qs "total_items" = Ok (VInt (Z.of_nat n)) /\
    (s <= n)%nat /\ (k <= n)%nat.
Proof.
  apply (match_counts_are_bounded (Demo.env false)
           Demo.orchestrator_without_kb "qa.txt" "bom.csv" "wf-1" None Demo.files
           DemoRuns.final_result).
  vm_compute. reflexivity.
Defined.

(** ** More on the constructor *)

Section InitFacts.
Context {W : Type} (env : @Collaborators W).

Lemma init_spec client (w : W) :
  wp (AgentOrchestrator_init env client) w (fun r _ ev => init_outcome r ev).
Proof.
  unfold AgentOrchestrator_init. cbv zeta.
  repeat wp_step.
  all: unfold init_outcome; cbn [knowledge_base item_matcher app].
  all: unfold knowledge_classes, agent_classes, init_warning.
  - intros class e Hin. cases_of Hin; discriminate Hin.
  - do 2 eexists. split; [|split]; [|find_in_list|]; find_in_list.
  - do 2 eexists. split; [|split]; [|find_in_list|]; find_in_list.
  - split.
    + eexists. split; [|find_in_list]; find_in_list.
    + intros class r Hin. cases_of Hin; injection Hin as <- _; find_in_list.
  - split.
    + eexists. split; [|find_in_list]; find_in_list.
    + intros class r Hin. cases_of Hin; injection Hin as <- _; find_in_list.
Qed.

Lemma init_matcher_down client (w : W) e :
  wp (AgentOrchestrator_init env client) w (fun r _ ev =>
    In (ECall (CNew "ItemMatcher") (Raise e)) ev ->
    In (ECall (CNew "KnowledgeBase") (Ok VNone)) ev /\
    In (init_warning e) ev /\
    exists self,
      r = Ok self /\
      knowledge_base env self = None /\ item_matcher env self = None).
Proof.
  unfold AgentOrchestrator_init. cbv zeta.
  repeat wp_step.
  all: intros Hin; simpl in Hin; cases_of Hin; try discriminate Hin.
  injection Hin as <-. simpl.
  split; [find_in_list|]. split; [unfold init_warning; find_in_list|].
  eexists. by repeat split.
Qed.

(** X16: [__init__] ends in one of three ways.  It returns an
    orchestrator that holds a knowledge base and its matcher, and then no
    constructor raised; or it returns one that holds neither, and then
    the constructor of the knowledge base or of the matcher raised and
    "Failed to initialize knowledge base" was logged with that exception;
    or it raises, and then the exception is that of the supplier-BOM or
    comparison agent's constructor and no knowledge base was tried.  An
    orchestrator never holds one of knowledge base and matcher without
    the other. *)
Theorem init_ends_in_three_ways client (w : W) :
  let o := AgentOrchestrator_init env client w in
  init_outcome (result o) (events o).
Proof. apply init_spec. Qed.

(** X17: when the knowledge base came up but the constructor of its
    matcher raised, the orchestrator keeps neither: the knowledge base
    that was built is dropped, the failure is logged as a warning, and
    the constructor returns. *)
Theorem matcher_failure_drops_knowledge_base client (w : W) e :
  let o := AgentOrchestrator_init env client w in
  In (ECall (CNew "ItemMatcher") (Raise e)) (events o) ->
  In (ECall (CNew "KnowledgeBase") (Ok VNone)) (events o) /\
  In (init_warning e) (events o) /\
  exists self,
    result o = Ok self /\
    knowledge_base env self = None /\ item_matcher env self = None.
Proof. intros o Hin. exact (init_matcher_down client w e Hin). Qed.

End InitFacts.

(** X17 at work: the matcher of this world does not come up. *)
Lemma matcher_failure_drops_knowledge_base_witness :
  let o := AgentOrchestrator_init MoreRuns.env_matcher_down Demo.client Demo.files in
  In (ECall (CNew "KnowledgeBase") (Ok VNone)) (events o) /\
  In (init_warning MoreRuns.matcher_error) (events o) /\
  exists self,
    result o = Ok self /\
    knowledge_base MoreRuns.env_matcher_down self = None /\
    item_matcher MoreRuns.env_matcher_down self = None.
Proof.
  apply (matcher_failure_drops_knowledge_base MoreRuns.env_matcher_down
           Demo.client Demo.files MoreRuns.matcher_error).
  apply (nth_error_In _ 3). vm_compute. reflexivity.
Defined.

(** ** More on the legacy entry point *)

Section LegacyFacts.
Context {W : Type} (env : @Collaborators W).

(** X18: the legacy [process_documents] adds nothing of its own to the
    run of [process_documents_enhanced] it delegates to: it leaves the
    same trace and the same world; when the enhanced run raises, it
    raises the same exception, unhandled and unlogged; and when it
    returns a [BOMComparisonResult], the enhanced run returned and the
    three fields are the entries of the enhanced result. *)
Theorem legacy_adds_nothing self qa bom wid cb (w : W) :
  let o := process_documents_enhanced env self qa bom wid cb w in
  let o' := process_documents env self qa bom wid cb w in
  events o' = events o /\
  world_after o' = world_after o /\
  match result o, result o' with
  | Raise e, r' => r' = Raise e
  | Ok v, Ok b =>
      py_subscript v "workflow_id" = Ok (workflow_id b) /\
      py_subscript v "matches" = Ok (matches b) /\
      py_subscript v "summary" = Ok (summary b)
  | Ok v, Raise _ => True
  end.
Proof.
  cbv zeta. unfold process_documents, mbind, M_bind.
  destruct (result (process_documents_enhanced env self qa bom wid cb w))
    as [v|e] eqn:E; [|done].
  pose proof (enhanced_result_shape env _ _ _ _ _ _ _ E) as Eb.
  pose proof (enhanced_body_spec env self qa bom wid cb w) as Hb.
  unfold wp, body_post in Hb. rewrite Eb in Hb.
  destruct Hb as [(ms & sm & st & qs & -> & Hsm) _].
  assert (E1 : py_subscript (final_record wid ms sm st qs) "workflow_id" = Ok (VStr wid))
    by reflexivity.
  assert (E2 : py_subscript (final_record wid ms sm st qs) "matches" = Ok ms)
    by reflexivity.
  assert (E3 : py_subscript (final_record wid ms sm st qs) "summary" = Ok sm)
    by reflexivity.
  unfold lift. cbn [result world_after events].
  rewrite E1. cbn [result world_after events].
  rewrite E2. cbn [result world_after events].
  rewrite E3. cbn [result world_after events].
  rewrite !app_nil_r. do 2 (split; [done|]).
  unfold BOMComparisonResult_new.
  by destruct (is_str (VStr wid) && is_list_of_str_dicts ms && is_str_dict sm).
Qed.

End LegacyFacts.

(** ** The Gemini client in a workflow *)

Section ClientFacts.
Context {W : Type} (env : @Collaborators W).

Lemma alike_refl {A} (o : @out W A) : alike eq o o.
Proof. unfold alike. by destruct (result o). Qed.

Lemma alike_eq {A} (o o' : @out W A) : alike eq o o' -> o = o'.
Proof.
  destruct o as [r w ev], o' as [r' w' ev']. unfold alike. simpl.
  intros (-> & -> & H). by destruct r, r'; subst.
Qed.

Lemma alike_bind {A A' B B'} (R : A -> A' -> Prop) (S : B -> B' -> Prop)
    (m : M A) (m' : M A') (f : A -> M B) (f' : A' -> M B') (w : W) :
  alike R (m w) (m' w) ->
  (forall a a' w', R a a' -> alike S (f a w') (f' a' w')) ->
  alike S ((m ≫= f) w) ((m' ≫= f') w).
Proof.
  unfold alike at 1. unfold mbind, M_bind. cbv zeta.
  intros (Hev & Hw & Hr) Hf.
  destruct (result (m w)) as [a|e], (result (m' w)) as [a'|e']; try done.
  rewrite Hw. destruct (Hf a a' (world_after (m' w)) Hr) as (Hev' & Hw' & Hr').
  unfold alike. cbn [result world_after events]. by rewrite Hev, Hev'.
Qed.

Lemma init_same_agents client client' (w : W) :
  (forall w, SupplierBOMAgent_new env client w = SupplierBOMAgent_new env client' w) ->
  (forall w, ComparisonAgent_new env client w = ComparisonAgent_new env client' w) ->
  alike same_agents (AgentOrchestrator_init env client w)
                    (AgentOrchestrator_init env client' w).
Proof.
  intros Hs Hc. unfold AgentOrchestrator_init. cbv zeta.
  apply (alike_bind eq).
  { unfold call. rewrite Hs. apply alike_refl. }
  intros sa ? w1 <-. apply (alike_bind eq).
  { unfold call. rewrite Hc. apply alike_refl. }
  intros ca ? w2 <-. apply (alike_bind eq); [apply alike_refl|].
  intros [kb im] ? w3 <-. apply (alike_bind eq); [apply alike_refl|].
  intros [] ? w4 <-. by repeat split.
Qed.

Lemma run_same_agents (s s' : AgentOrchestrator env) qa bom wid cb :
  same_agents s s' ->
  process_documents_enhanced env s qa bom wid cb
  = process_documents_enhanced env s' qa bom wid cb.
Proof.
  destruct s, s'. unfold same_agents. simpl.
  intros (-> & -> & -> & ->). reflexivity.
Qed.

(** X19: the orchestrator and its translation and extraction agents
    never call the Gemini client, so the client given to [__init__] can
    bear on a workflow only through the supplier-BOM and comparison
    agents that are constructed with it: with two clients from which
    these two constructors do the same, constructing the orchestrator
    and running [process_documents_enhanced] on it has the same result,
    leaves the same world and the same trace. *)
Theorem client_reaches_only_the_agents client client' qa bom wid cb :
  (forall w, SupplierBOMAgent_new env client w = SupplierBOMAgent_new env client' w) ->
  (forall w, ComparisonAgent_new env client w = ComparisonAgent_new env client' w) ->
  forall w : W,
    workflow env client qa bom wid cb w = workflow env client' qa bom wid cb w.
Proof.
  intros Hs Hc w. apply alike_eq. unfold workflow.
  apply (alike_bind same_agents).
  - by apply init_same_agents.
  - intros s s' w' Hsame. rewrite (run_same_agents s s' qa bom wid cb Hsame).
    apply alike_refl.
Qed.

End ClientFacts.

(** X19 at work: with or without an API key. *)
Lemma client_reaches_only_the_agents_witness :
  workflow (Demo.env true) Demo.client "qa.txt" "bom.csv" "wf-1" None Demo.files
  = workflow (Demo.env true) MoreRuns.keyed_client "qa.txt" "bom.csv" "wf-1" None
      Demo.files.
Proof.
  apply (client_reaches_only_the_agents (Demo.env true) Demo.client
           MoreRuns.keyed_client "qa.txt" "bom.csv" "wf-1" None).
  - intros w. reflexivity.
  - intros w. reflexivity.
Defined.

(** ** Runs in which every collaborator does its part *)

Section CompletionFacts.
Context {W : Type} (env : @Collaborators W).

Lemma matcher_records ev m items wid v :
  forallb matcher_good ev = true ->
  In (ECall (CMatchKB m items wid) (Ok v)) ev ->
  match_records v = true.
Proof.
  intros Hg Hin. rewrite forallb_forall in Hg. exact (Hg _ Hin).
Qed.

End CompletionFacts.

(** One step of a run in which every call is good, the pure code after
    the matcher being taken case by case. *)
Ltac wpg_stepk :=
  first
    [ wpg_step
    | lazymatch goal with
      | |- wpg (match ?o with Some _ => _ | None => _ end) _ _ => destruct o eqn:?
      | |- match ?r with Ok _ => _ | Raise _ => _ end => destruct r eqn:?
      end; cbv beta iota zeta ].

Ltac matcher_was_good Hg :=
  match goal with
  | H : count_where _ ?a = Raise _ |- _ =>
      assert (match_records a = true)
        by (eapply matcher_records; [exact Hg|find_in_trace])
  | H : _generate_qa_classification_summary ?a = Raise _ |- _ =>
      assert (match_records a = true)
        by (eapply matcher_records; [exact Hg|find_in_trace])
  end.

Section CompletionRun.
Context {W : Type} (env : @Collaborators W).

Lemma good_body_returns self qa bom wid cb (w : W) :
  wpg (enhanced_body env self qa bom wid cb) w
      (fun r _ ev => forallb matcher_good ev = true -> is_ok r = true).
Proof.
  unfold enhanced_body.
  destruct cb as [f|].
  all: repeat wpg_stepk.
  all: intros Hg_; try reflexivity.
  all: matcher_was_good Hg_.
  all: match goal with
       | H : match_records _ = true |- _ =>
           destruct (match_records_counts _ H) as (? & ? & ? & ? & -> & ? & ? & ?)
       end.
  all: congruence.
Qed.

Lemma good_run_returns self qa bom wid cb (w : W) :
  let run := process_documents_enhanced env self qa bom wid cb w in
  forallb call_good (events run) = true ->
  forallb matcher_good (events run) = true ->
  exists v, result run = Ok v.
Proof.
  intros run Hc Hm. subst run.
  pose proof (good_body_returns self qa bom wid cb w) as Hb.
  unfold wpg, wp in Hb.
  destruct (result (enhanced_body env self qa bom wid cb w)) as [v|e] eqn:Eb.
  - exists v. by rewrite (enhanced_ok env _ _ _ _ _ _ _ Eb).
  - exfalso.
    pose proof (enhanced_raise env _ _ _ _ _ _ _ Eb) as Hr. cbv zeta in Hr.
    assert (exists l, events (process_documents_enhanced env self qa bom wid cb w)
                      = (start_log wid ::
                         events (enhanced_body env self qa bom wid cb w) ++ l)%list)
      as [l Hev].
    { destruct cb as [f|]; [destruct Hr as (r & _ & ->)|destruct Hr as [_ ->]];
        by eexists. }
    rewrite Hev in Hc, Hm. simpl in Hc, Hm.
    rewrite forallb_app in Hc, Hm.
    apply andb_prop in Hc as [Hc _]. apply andb_prop in Hm as [Hm _].
    by specialize (Hb Hc Hm).
Qed.

(** X20: every run in which the collaborators do their part returns,
    whether the orchestrator holds a matcher or not: if no call raises
    (the best-effort saves apart), the document has text, the supplier
    BOM has items, and the matcher or the fallback comparison yields
    match records, then [process_documents_enhanced] returns a result,
    made of what the collaborators answered. *)
Theorem good_collaborators_complete self qa bom wid cb (w : W) :
  let run := process_documents_enhanced env self qa bom wid cb w in
  forallb call_good (events run) = true ->
  forallb matcher_good (events run) = true ->
  exists v, result run = Ok v /\ result_made_of env self wid v (events run).
Proof.
  intros run Hc Hm.
  destruct (good_run_returns self qa bom wid cb w Hc Hm) as [v Hv].
  exists v. split; [done|]. by apply run_result.
Qed.

End CompletionRun.

(** X20 at work: the run of the small world with the knowledge base up. *)
Lemma good_collaborators_complete_witness :
  exists v,
    result (MoreRuns.run_kb (Some Demo.quiet_callback)) = Ok v /\
    result_made_of (Demo.env true) MoreRuns.orchestrator_with_kb "wf-1" v
      (events (MoreRuns.run_kb (Some Demo.quiet_callback))).
Proof.
  apply (good_collaborators_complete (Demo.env true) MoreRuns.orchestrator_with_kb
           "qa.txt" "bom.csv" "wf-1" (Some Demo.quiet_callback) Demo.files).
  - vm_compute. reflexivity.
  - vm_compute. reflexivity.
Defined.
